(** * flux_led/protocol.py: the LEDENET wire protocols

    A shallow embedding of the three protocol classes of
    [flux_led/protocol.py] (ProtocolLEDENETOriginal, ProtocolLEDENET8Byte and
    ProtocolLEDENET9Byte) and the properties of the messages they build and
    of the state responses they accept.

    Python integers are [Z].  A [bytearray] is a mutable object: it lives in
    a heap and is passed around by reference, because [construct_message] of
    the checksummed protocols appends to its argument in place and returns
    the same object.  Exceptions and the logger are explicit: a method is a
    function from the world to a result (a value or a raised exception) and
    the world it leaves behind. *)

From Stdlib Require Import ZArith Lia List String.
From stdpp Require Import base list.
Import ListNotations.
Open Scope Z_scope.

(** ** The fragment of Python the module uses *)

Module Python.

Inductive exn : Type :=
| ValueError   (* bytearray: "byte must be in range(0, 256)" *)
| IndexError   (* index out of range *)
| TypeError    (* a namedtuple called with the wrong number of arguments *)
| SystemError. (* a reference to no object: never built by the classes below *)

Inductive result (A : Type) : Type :=
| Ok (a : A)
| Raise (e : exn).
Arguments Ok {A} a.
Arguments Raise {A} e.

(** A record of the logging module: the format string and its arguments. *)
Record log_record : Type := Warning { msg : string; args : list Z }.

(** References are addresses of the heap; [bytearray] objects are the only
    mutable objects of the module. *)
Definition ref : Type := nat.

Record world : Type := World { heap : list (list Z); log : list log_record }.

Definition M (A : Type) : Type := world -> result A * world.

Definition ret {A} (a : A) : M A := fun w => (Ok a, w).

Definition raise {A} (e : exn) : M A := fun w => (Raise e, w).

Definition bind {A B} (c : M A) (k : A -> M B) : M B :=
  fun w =>
    match c w with
    | (Ok a, w') => k a w'
    | (Raise e, w') => (Raise e, w')
    end.

Definition lift {A} (r : result A) : M A := fun w => (r, w).

(** [range(0, 256)] *)
Definition is_byte (x : Z) : bool := (0 <=? x) && (x <=? 255).

(** [len(l)] *)
Definition len (l : list Z) : Z := Z.of_nat (length l).

(** [sum(l)]: starts from 0 and adds the items from left to right. *)
Definition sum (l : list Z) : Z := fold_left Z.add l 0.

(** [l[i]] for an integer [i]: a negative index counts from the end. *)
Definition getitem (l : list Z) (i : Z) : result Z :=
  let j := if i <? 0 then i + len l else i in
  if (j <? 0) || (len l <=? j) then Raise IndexError
  else match l !! Z.to_nat j with
       | Some x => Ok x
       | None => Raise IndexError
       end.

(** [l[start:stop]]: negative bounds count from the end, and both bounds
    are clamped to the sequence. *)
Definition slice_bound (n i : Z) : Z :=
  if i <? 0 then Z.max 0 (i + n) else Z.min i n.

Definition slice (l : list Z) (start stop : Z) : list Z :=
  let a := slice_bound (len l) start in
  let b := slice_bound (len l) stop in
  firstn (Z.to_nat (b - a)) (skipn (Z.to_nat a) l).

(** [bytearray(items)]: a fresh object, or ValueError when an item is not
    in [range(0, 256)]. *)
Definition bytearray (items : list Z) : M ref :=
  fun w =>
    if forallb is_byte items
    then (Ok (length (heap w)), World (heap w ++ [items]) (log w))
    else (Raise ValueError, w).

(** The items of the object a reference points to. *)
Definition items (r : ref) : M (list Z) :=
  fun w =>
    match heap w !! r with
    | Some bs => (Ok bs, w)
    | None => (Raise SystemError, w)
    end.

(** [r.append(x)]: in place. *)
Definition append (r : ref) (x : Z) : M unit :=
  fun w =>
    match heap w !! r with
    | Some bs =>
        if is_byte x
        then (Ok tt, World (<[r := bs ++ [x]]> (heap w)) (log w))
        else (Raise ValueError, w)
    | None => (Raise SystemError, w)
    end.

(** [_LOGGER.warning(msg, *args)] *)
Definition warning (m : string) (a : list Z) : M unit :=
  fun w => (Ok tt, World (heap w) (log w ++ [Warning m a])).

End Python.
Import Python.

Notation "'let*' x ':=' c 'in' k" := (bind c (fun x => k))
  (at level 10, x name, c at level 100, k at level 200).

(** ** Constants and data of the module *)

Definition PROTOCOL_LEDENET_ORIGINAL : string := "LEDENET_ORIGINAL".
Definition PROTOCOL_LEDENET_9BYTE : string := "LEDENET".
Definition PROTOCOL_LEDENET_8BYTE : string := "LEDENET_8BYTE".

Definition LEDENET_ORIGINAL_STATE_RESPONSE_LEN : Z := 11.
Definition LEDENET_STATE_RESPONSE_LEN : Z := 14.

Inductive LevelWriteMode : Type := ALL | COLORS | WHITES.

(** [mode.value] *)
Definition value (m : LevelWriteMode) : Z :=
  match m with
  | ALL => 0x00
  | COLORS => 0xF0
  | WHITES => 0x0F
  end.

(** The two namedtuples.  A namedtuple called with a wrong number of
    positional arguments raises TypeError. *)
Module LEDENETOriginalRawState.
Record t : Type := mk {
  head : Z; model_num : Z; power_state : Z; preset_pattern : Z; mode : Z;
  speed : Z; red : Z; green : Z; blue : Z; warm_white : Z;
  check_sum : Z }.

Definition new (xs : list Z) : result t :=
  match xs with
  | [a0; a1; a2; a3; a4; a5; a6; a7; a8; a9; a10] =>
      Ok (mk a0 a1 a2 a3 a4 a5 a6 a7 a8 a9 a10)
  | _ => Raise TypeError
  end.
End LEDENETOriginalRawState.

Module LEDENETRawState.
Record t : Type := mk {
  head : Z; model_num : Z; power_state : Z; preset_pattern : Z; mode : Z;
  speed : Z; red : Z; green : Z; blue : Z; warm_white : Z;
  version_number : Z; cool_white : Z; color_mode : Z; check_sum : Z }.

Definition new (xs : list Z) : result t :=
  match xs with
  | [a0; a1; a2; a3; a4; a5; a6; a7; a8; a9; a10; a11; a12; a13] =>
      Ok (mk a0 a1 a2 a3 a4 a5 a6 a7 a8 a9 a10 a11 a12 a13)
  | _ => Raise TypeError
  end.
End LEDENETRawState.

Inductive raw_state_record : Type :=
| OriginalRawState (s : LEDENETOriginalRawState.t)
| RawState (s : LEDENETRawState.t).

(** ** The protocol classes

    An instance of a protocol class has no field, so [self] is the class.
    A method called through [self] is resolved by the class of [self]: the
    definition named after a method alone ([construct_message], ...) is that
    resolution, an entry per class, and an entry of ProtocolLEDENET9Byte that
    names a ProtocolLEDENET8Byte body is an inherited method. *)

Inductive protocol : Type :=
| ProtocolLEDENETOriginal
| ProtocolLEDENET8Byte
| ProtocolLEDENET9Byte.

(** *** ProtocolBase: the members that are not abstract *)

Definition ProtocolBase_on_byte (self : protocol) : Z := 0x23.
Definition ProtocolBase_off_byte (self : protocol) : Z := 0x24.

Definition on_byte (self : protocol) : Z := ProtocolBase_on_byte self.
Definition off_byte (self : protocol) : Z := ProtocolBase_off_byte self.

(** *** name, state_response_length *)

Definition name (self : protocol) : string :=
  match self with
  | ProtocolLEDENETOriginal => PROTOCOL_LEDENET_ORIGINAL
  | ProtocolLEDENET8Byte => PROTOCOL_LEDENET_8BYTE
  | ProtocolLEDENET9Byte => PROTOCOL_LEDENET_9BYTE
  end.

Definition ProtocolLEDENETOriginal_state_response_length (self : protocol) : Z :=
  LEDENET_ORIGINAL_STATE_RESPONSE_LEN.

Definition ProtocolLEDENET8Byte_state_response_length (self : protocol) : Z :=
  LEDENET_STATE_RESPONSE_LEN.

Definition state_response_length (self : protocol) : Z :=
  match self with
  | ProtocolLEDENETOriginal => ProtocolLEDENETOriginal_state_response_length self
  | ProtocolLEDENET8Byte => ProtocolLEDENET8Byte_state_response_length self
  | ProtocolLEDENET9Byte => ProtocolLEDENET8Byte_state_response_length self
  end.

(** *** construct_message *)

(** Original protocol uses no checksum. *)
Definition ProtocolLEDENETOriginal_construct_message
    (self : protocol) (raw_bytes : ref) : M ref :=
  ret raw_bytes.

(** Calculate checksum of byte array and add to end. *)
Definition ProtocolLEDENET8Byte_construct_message
    (self : protocol) (raw_bytes : ref) : M ref :=
  let* bs := items raw_bytes in
  let csum := Z.land (sum bs) 0xFF in
  let* _ := append raw_bytes csum in
  ret raw_bytes.

Definition construct_message (self : protocol) : ref -> M ref :=
  match self with
  | ProtocolLEDENETOriginal => ProtocolLEDENETOriginal_construct_message self
  | ProtocolLEDENET8Byte => ProtocolLEDENET8Byte_construct_message self
  | ProtocolLEDENET9Byte => ProtocolLEDENET8Byte_construct_message self
  end.

(** *** is_valid_state_response

    [raw_state] is what was read from the socket, a [bytes] value: it is
    only read here, so it is passed by value. *)

Definition ProtocolLEDENETOriginal_is_valid_state_response
    (self : protocol) (raw_state : list Z) : M bool :=
  if len raw_state =? state_response_length self
  then let* b1 := lift (getitem raw_state 1) in ret (b1 =? 0x01)
  else ret false.

Definition ProtocolLEDENET8Byte_is_valid_state_response
    (self : protocol) (raw_state : list Z) : M bool :=
  if negb (len raw_state =? state_response_length self) then ret false
  else
    let* b0 := lift (getitem raw_state 0) in
    if negb (b0 =? 0x81) then ret false
    else
      let expected_sum := Z.land (sum (slice raw_state 0 (-1))) 0xFF in
      let* last := lift (getitem raw_state (-1)) in
      if negb (expected_sum =? last)
      then
        let* got := lift (getitem raw_state (-1)) in
        let* _ := warning "Checksum mismatch: Expected %s, got %s"
                          [expected_sum; got] in
        ret false
      else ret true.

Definition is_valid_state_response (self : protocol) : list Z -> M bool :=
  match self with
  | ProtocolLEDENETOriginal => ProtocolLEDENETOriginal_is_valid_state_response self
  | ProtocolLEDENET8Byte => ProtocolLEDENET8Byte_is_valid_state_response self
  | ProtocolLEDENET9Byte => ProtocolLEDENET8Byte_is_valid_state_response self
  end.

(** *** construct_state_query *)

Definition ProtocolLEDENETOriginal_construct_state_query
    (self : protocol) : M ref :=
  let* raw_bytes := bytearray [0xEF; 0x01; 0x77] in
  construct_message self raw_bytes.

Definition ProtocolLEDENET8Byte_construct_state_query
    (self : protocol) : M ref :=
  let* raw_bytes := bytearray [0x81; 0x8A; 0x8B] in
  construct_message self raw_bytes.

Definition construct_state_query (self : protocol) : M ref :=
  match self with
  | ProtocolLEDENETOriginal => ProtocolLEDENETOriginal_construct_state_query self
  | ProtocolLEDENET8Byte => ProtocolLEDENET8Byte_construct_state_query self
  | ProtocolLEDENET9Byte => ProtocolLEDENET8Byte_construct_state_query self
  end.

(** *** construct_state_change *)

Definition ProtocolLEDENETOriginal_construct_state_change
    (self : protocol) (turn_on : bool) : M ref :=
  let* raw_bytes :=
    bytearray [0xCC; if turn_on then on_byte self else off_byte self; 0x33] in
  construct_message self raw_bytes.

Definition ProtocolLEDENET8Byte_construct_state_change
    (self : protocol) (turn_on : bool) : M ref :=
  let* raw_bytes :=
    bytearray [0x71; if turn_on then on_byte self else off_byte self; 0x0F] in
  construct_message self raw_bytes.

Definition construct_state_change (self : protocol) : bool -> M ref :=
  match self with
  | ProtocolLEDENETOriginal => ProtocolLEDENETOriginal_construct_state_change self
  | ProtocolLEDENET8Byte => ProtocolLEDENET8Byte_construct_state_change self
  | ProtocolLEDENET9Byte => ProtocolLEDENET8Byte_construct_state_change self
  end.

(** *** construct_levels_change *)

Definition ProtocolLEDENETOriginal_construct_levels_change
    (self : protocol) (persist : bool) (red green blue warm_white cool_white : Z)
    (color_mask : LevelWriteMode) : M ref :=
  let* raw_bytes := bytearray [0x56; red; green; blue; 0xAA] in
  construct_message self raw_bytes.

Definition ProtocolLEDENET8Byte_construct_levels_change
    (self : protocol) (persist : bool) (red green blue warm_white cool_white : Z)
    (write_mode : LevelWriteMode) : M ref :=
  let* raw_bytes :=
    bytearray [if persist then 0x31 else 0x41;
               red; green; blue; warm_white; value write_mode; 0x0F] in
  construct_message self raw_bytes.

Definition ProtocolLEDENET9Byte_construct_levels_change
    (self : protocol) (persist : bool) (red green blue warm_white cool_white : Z)
    (write_mode : LevelWriteMode) : M ref :=
  let* raw_bytes :=
    bytearray [if persist then 0x31 else 0x41;
               red; green; blue; warm_white; cool_white; value write_mode;
               0x0F] in
  construct_message self raw_bytes.

Definition construct_levels_change (self : protocol)
    : bool -> Z -> Z -> Z -> Z -> Z -> LevelWriteMode -> M ref :=
  match self with
  | ProtocolLEDENETOriginal => ProtocolLEDENETOriginal_construct_levels_change self
  | ProtocolLEDENET8Byte => ProtocolLEDENET8Byte_construct_levels_change self
  | ProtocolLEDENET9Byte => ProtocolLEDENET9Byte_construct_levels_change self
  end.

(** *** named_raw_state *)

Definition ProtocolLEDENETOriginal_named_raw_state
    (self : protocol) (raw_state : list Z) : result LEDENETOriginalRawState.t :=
  LEDENETOriginalRawState.new raw_state.

Definition ProtocolLEDENET8Byte_named_raw_state
    (self : protocol) (raw_state : list Z) : result LEDENETRawState.t :=
  LEDENETRawState.new raw_state.

Definition named_raw_state (self : protocol) (raw_state : list Z)
    : result raw_state_record :=
  match self with
  | ProtocolLEDENETOriginal =>
      match ProtocolLEDENETOriginal_named_raw_state self raw_state with
      | Ok s => Ok (OriginalRawState s)
      | Raise e => Raise e
      end
  | ProtocolLEDENET8Byte | ProtocolLEDENET9Byte =>
      match ProtocolLEDENET8Byte_named_raw_state self raw_state with
      | Ok s => Ok (RawState s)
      | Raise e => Raise e
      end
  end.

(** ** What a caller observes *)

(** The message a constructor returns: the items, after the call, of the
    bytearray it returned. *)
Definition message_of (c : M ref) (w : world) : result (list Z) :=
  fst ((let* r := c in items r) w).

(** Two calls in a row, and the two messages read once both have returned. *)
Definition two_calls (c : M ref) (w : world) : result (list Z * list Z) :=
  fst ((let* r1 := c in
        let* r2 := c in
        let* m1 := items r1 in
        let* m2 := items r2 in
        ret (m1, m2)) w).

(** The checksum of the checksummed protocols, and the frame each class
    puts around the bytes of a command. *)
Definition checksum (bs : list Z) : Z := sum bs mod 256.

Definition framed (self : protocol) (bs : list Z) : list Z :=
  match self with
  | ProtocolLEDENETOriginal => bs
  | ProtocolLEDENET8Byte | ProtocolLEDENET9Byte => bs ++ [checksum bs]
  end.

Definition checksummed (self : protocol) : bool :=
  match self with
  | ProtocolLEDENETOriginal => false
  | ProtocolLEDENET8Byte | ProtocolLEDENET9Byte => true
  end.

(** [sum(m[0:-1]) mod 256 == m[-1]], with the exception [m[-1]] raises on an
    empty message. *)
Definition trailing_checksum_ok (m : list Z) : result bool :=
  match getitem m (-1) with
  | Ok last => Ok (sum (slice m 0 (-1)) mod 256 =? last)
  | Raise e => Raise e
  end.

(** A computation builds [m] when, in every world, it returns a fresh
    bytearray holding [m] and changes nothing else; it fails with [e] when,
    in every world, it raises [e] and changes nothing. *)
Definition builds (c : M ref) (m : list Z) : Prop :=
  forall w, c w = (Ok (length (heap w)), World (heap w ++ [m]) (log w)).

Definition fails (c : M ref) (e : exn) : Prop :=
  forall w, c w = (Raise e, w).

(** ** The commands and their payloads

    The payload of a command is the list of bytes written in the spec for
    each variant, before framing; [construct] is the constructor call a
    caller makes for a command. *)

Inductive command : Type :=
| StateQuery
| StateChange (turn_on : bool)
| LevelsChange (persist : bool) (red green blue warm_white cool_white : Z)
               (write_mode : LevelWriteMode).

Definition construct (self : protocol) (cmd : command) : M ref :=
  match cmd with
  | StateQuery => construct_state_query self
  | StateChange turn_on => construct_state_change self turn_on
  | LevelsChange persist red green blue warm_white cool_white write_mode =>
      construct_levels_change self persist red green blue warm_white cool_white
                              write_mode
  end.

Definition persist_byte (persist : bool) : Z := if persist then 0x31 else 0x41.
Definition power_byte (turn_on : bool) : Z := if turn_on then 0x23 else 0x24.

Definition payload (self : protocol) (cmd : command) : list Z :=
  match cmd, self with
  | StateQuery, ProtocolLEDENETOriginal => [0xEF; 0x01; 0x77]
  | StateQuery, _ => [0x81; 0x8A; 0x8B]
  | StateChange turn_on, ProtocolLEDENETOriginal => [0xCC; power_byte turn_on; 0x33]
  | StateChange turn_on, _ => [0x71; power_byte turn_on; 0x0F]
  | LevelsChange _ r g b _ _ _, ProtocolLEDENETOriginal => [0x56; r; g; b; 0xAA]
  | LevelsChange p r g b ww _ m, ProtocolLEDENET8Byte =>
      [persist_byte p; r; g; b; ww; value m; 0x0F]
  | LevelsChange p r g b ww cw m, ProtocolLEDENET9Byte =>
      [persist_byte p; r; g; b; ww; cw; value m; 0x0F]
  end.

(** The channel values of a command, and those a variant writes into its
    message. *)
Definition channels (cmd : command) : list Z :=
  match cmd with
  | LevelsChange _ r g b ww cw _ => [r; g; b; ww; cw]
  | _ => []
  end.

Definition encoded_channels (self : protocol) (cmd : command) : list Z :=
  match cmd, self with
  | LevelsChange _ r g b _ _ _, ProtocolLEDENETOriginal => [r; g; b]
  | LevelsChange _ r g b ww _ _, ProtocolLEDENET8Byte => [r; g; b; ww]
  | LevelsChange _ r g b ww cw _, ProtocolLEDENET9Byte => [r; g; b; ww; cw]
  | _, _ => []
  end.

(** A channel value, or an item of a message, in 0..255. *)
Definition in_range (x : Z) : Prop := 0 <= x <= 255.

(** The record is_valid_state_response logs on a checksum mismatch. *)
Definition checksum_mismatch (expected got : Z) : log_record :=
  Warning "Checksum mismatch: Expected %s, got %s" [expected; got].

(** ** The namedtuples as tuples

    The field names of the two namedtuples, as the module lists them, and
    the items of a namedtuple: a namedtuple is a tuple of its fields in
    their order. *)

Definition LEDENET_BASE_STATE : list string :=
  ["head"%string; "model_num"%string; "power_state"%string;
   "preset_pattern"%string; "mode"%string; "speed"%string; "red"%string;
   "green"%string; "blue"%string; "warm_white"%string].

Definition LEDENETOriginalRawState_fields : list string :=
  LEDENET_BASE_STATE ++ ["check_sum"%string].

Definition LEDENETRawState_fields : list string :=
  LEDENET_BASE_STATE
  ++ ["version_number"%string; "cool_white"%string; "color_mode"%string;
      "check_sum"%string].

Definition LEDENETOriginalRawState_items (s : LEDENETOriginalRawState.t)
    : list Z :=
  [LEDENETOriginalRawState.head s; LEDENETOriginalRawState.model_num s;
   LEDENETOriginalRawState.power_state s;
   LEDENETOriginalRawState.preset_pattern s; LEDENETOriginalRawState.mode s;
   LEDENETOriginalRawState.speed s; LEDENETOriginalRawState.red s;
   LEDENETOriginalRawState.green s; LEDENETOriginalRawState.blue s;
   LEDENETOriginalRawState.warm_white s; LEDENETOriginalRawState.check_sum s].

Definition LEDENETRawState_items (s : LEDENETRawState.t) : list Z :=
  [LEDENETRawState.head s; LEDENETRawState.model_num s;
   LEDENETRawState.power_state s; LEDENETRawState.preset_pattern s;
   LEDENETRawState.mode s; LEDENETRawState.speed s; LEDENETRawState.red s;
   LEDENETRawState.green s; LEDENETRawState.blue s;
   LEDENETRawState.warm_white s; LEDENETRawState.version_number s;
   LEDENETRawState.cool_white s; LEDENETRawState.color_mode s;
   LEDENETRawState.check_sum s].

Definition raw_state_items (s : raw_state_record) : list Z :=
  match s with
  | OriginalRawState o => LEDENETOriginalRawState_items o
  | RawState r => LEDENETRawState_items r
  end.

(** The field names of the namedtuple that named_raw_state of a class
    builds. *)
Definition raw_state_fields (self : protocol) : list string :=
  match self with
  | ProtocolLEDENETOriginal => LEDENETOriginalRawState_fields
  | ProtocolLEDENET8Byte | ProtocolLEDENET9Byte => LEDENETRawState_fields
  end.

(** The one case in which is_valid_state_response logs: a response of a
    checksummed protocol with the right length and head whose last byte is
    not the checksum of the bytes before it. *)
Definition checksum_fault (self : protocol) (raw_state : list Z) : Prop :=
  checksummed self = true
  /\ length raw_state = 14%nat
  /\ raw_state !! 0%nat = Some 0x81
  /\ raw_state !! 13%nat <> Some (sum (take 13 raw_state) mod 256).

(** The kind of a command: which constructor builds it. *)
Inductive kind : Type := Query | Change | Levels.

Definition kind_of (cmd : command) : kind :=
  match cmd with
  | StateQuery => Query
  | StateChange _ => Change
  | LevelsChange _ _ _ _ _ _ _ => Levels
  end.

(** The number of bytes of the message of a command of a kind. *)
Definition message_length (self : protocol) (k : kind) : nat :=
  match self, k with
  | ProtocolLEDENETOriginal, (Query | Change) => 3
  | ProtocolLEDENETOriginal, Levels => 5
  | (ProtocolLEDENET8Byte | ProtocolLEDENET9Byte), (Query | Change) => 4
  | ProtocolLEDENET8Byte, Levels => 8
  | ProtocolLEDENET9Byte, Levels => 9
  end.

(** ** Arithmetic of bytes and sums *)

Section Bytes.

Lemma land_0xFF (s : Z) : Z.land s 0xFF = s mod 256.
Proof. change 0xFF with (Z.ones 8). now rewrite Z.land_ones by lia. Qed.

Lemma is_byte_spec (x : Z) : is_byte x = true <-> 0 <= x <= 255.
Proof. unfold is_byte. rewrite andb_true_iff, !Z.leb_le. tauto. Qed.

Lemma is_byte_mod (s : Z) : is_byte (s mod 256) = true.
Proof. apply is_byte_spec. pose proof (Z.mod_pos_bound s 256). lia. Qed.

Lemma is_byte_checksum (bs : list Z) : is_byte (checksum bs) = true.
Proof. apply is_byte_mod. Qed.

Lemma forallb_is_byte_Forall (l : list Z) :
  forallb is_byte l = true <-> Forall in_range l.
Proof.
  rewrite forallb_forall, Forall_forall.
  split; intros H x Hx.
  - apply is_byte_spec, H. now apply list_elem_of_In.
  - apply is_byte_spec, H. now apply list_elem_of_In.
Qed.

Lemma framed_bytes (self : protocol) (bs : list Z) :
  Forall in_range bs -> Forall in_range (framed self bs).
Proof.
  intros H. destruct self; cbn [framed]; [assumption| |];
    (apply Forall_app; split; [assumption|]);
    (constructor; [|constructor]);
    apply is_byte_spec, is_byte_checksum.
Qed.

Lemma sum_eight (a b c d e f g h : Z) :
  sum [a; b; c; d; e; f; g; h] = a + b + c + d + e + f + g + h.
Proof. unfold sum. cbn [fold_left]. lia. Qed.

Lemma sum_three (a b c : Z) : sum [a; b; c] = a + b + c.
Proof. unfold sum. cbn [fold_left]. lia.
Qed.

End Bytes.

(** ** Indexing and slicing from the end *)

Section Sequences.

Lemma len_snoc (l : list Z) (x : Z) : len (l ++ [x]) = len l + 1.
Proof. unfold len. rewrite length_app. simpl. lia. Qed.

Lemma getitem_last (l : list Z) (x : Z) : getitem (l ++ [x]) (-1) = Ok x.
Proof.
  unfold getitem. rewrite len_snoc. unfold len.
  change (-1 <? 0) with true. cbv iota.
  replace (-1 + (Z.of_nat (length l) + 1)) with (Z.of_nat (length l)) by lia.
  destruct (Z.ltb_spec (Z.of_nat (length l)) 0) as [?|_]; [lia|].
  destruct (Z.leb_spec (Z.of_nat (length l) + 1) (Z.of_nat (length l))) as [?|_]; [lia|].
  rewrite (Nat2Z.id (length l)).
  now rewrite list_lookup_middle.
Qed.

Lemma slice_init (l : list Z) (x : Z) : slice (l ++ [x]) 0 (-1) = l.
Proof.
  unfold slice, slice_bound. rewrite len_snoc. unfold len.
  change (0 <? 0) with false. change (-1 <? 0) with true. cbv iota.
  replace (Z.to_nat (Z.min 0 (Z.of_nat (length l) + 1))) with 0%nat by lia.
  replace (Z.to_nat (Z.max 0 (-1 + (Z.of_nat (length l) + 1))
                     - Z.min 0 (Z.of_nat (length l) + 1)))
    with (length l) by lia.
  now rewrite drop_0, take_app_length.
Qed.

Lemma trailing_checksum_framed (bs : list Z) :
  trailing_checksum_ok (bs ++ [checksum bs]) = Ok true.
Proof.
  unfold trailing_checksum_ok. rewrite getitem_last, slice_init.
  unfold checksum. now rewrite Z.eqb_refl.
Qed.

End Sequences.

(** ** Bytearrays in the heap *)

Section Heap.

Lemma bytearray_builds (bs : list Z) :
  forallb is_byte bs = true -> builds (bytearray bs) bs.
Proof. intros H w. unfold bytearray. now rewrite H. Qed.

Lemma bytearray_fails (bs : list Z) :
  forallb is_byte bs = false -> fails (bytearray bs) ValueError.
Proof. intros H w. unfold bytearray. now rewrite H. Qed.

Lemma lookup_fresh (h : list (list Z)) (bs : list Z) :
  (h ++ [bs]) !! length h = Some bs.
Proof. now apply list_lookup_middle. Qed.

Lemma insert_fresh (h : list (list Z)) (bs bs' : list Z) :
  <[length h := bs']> (h ++ [bs]) = h ++ [bs'].
Proof.
  replace (length h) with (length h + 0)%nat at 1 by lia.
  now rewrite insert_app_r.
Qed.

(** The checksummed [construct_message] on a bytearray that was just
    made: the checksum is appended to that very object. *)
Lemma ProtocolLEDENET8Byte_construct_message_fresh
    (self : protocol) (h : list (list Z)) (l : list log_record) (bs : list Z) :
  ProtocolLEDENET8Byte_construct_message self (length h) (World (h ++ [bs]) l)
  = (Ok (length h), World (h ++ [bs ++ [checksum bs]]) l).
Proof.
  unfold ProtocolLEDENET8Byte_construct_message, bind, items, append, ret.
  cbn [heap log]. rewrite lookup_fresh. cbn [heap log].
  rewrite lookup_fresh, land_0xFF.
  fold (checksum bs). rewrite is_byte_checksum.
  now rewrite insert_fresh.
Qed.

Lemma construct_message_builds (self : protocol) (bs : list Z) :
  forallb is_byte bs = true ->
  builds (let* raw_bytes := bytearray bs in construct_message self raw_bytes)
         (framed self bs).
Proof.
  intros H w. unfold bind. rewrite (bytearray_builds bs H w).
  destruct self; cbn [construct_message framed];
    [reflexivity | apply ProtocolLEDENET8Byte_construct_message_fresh ..].
Qed.

Lemma construct_message_fails (self : protocol) (bs : list Z) :
  forallb is_byte bs = false ->
  fails (let* raw_bytes := bytearray bs in construct_message self raw_bytes)
        ValueError.
Proof. intros H w. unfold bind. now rewrite (bytearray_fails bs H w). Qed.

Lemma builds_message_of (c : M ref) (m : list Z) (w : world) :
  builds c m -> message_of c w = Ok m.
Proof.
  intros H. unfold message_of, bind, items. rewrite (H w).
  cbn [heap]. now rewrite lookup_fresh.
Qed.

Lemma fails_message_of (c : M ref) (e : exn) (w : world) :
  fails c e -> message_of c w = Raise e.
Proof. intros H. unfold message_of, bind. now rewrite (H w). Qed.

Lemma builds_two_calls (c : M ref) (m : list Z) (w : world) :
  builds c m -> two_calls c w = Ok (m, m).
Proof.
  intros H. unfold two_calls, bind, items, ret. rewrite (H w), H.
  cbn [heap log]. rewrite lookup_app_l.
  - rewrite lookup_fresh. cbn [heap].
    replace (S (length (heap w))) with (length (heap w ++ [m])).
    + now rewrite lookup_fresh.
    + rewrite length_app. simpl. lia.
  - rewrite length_app. simpl. lia.
Qed.

Lemma fails_two_calls (c : M ref) (e : exn) (w : world) :
  fails c e -> two_calls c w = Raise e.
Proof. intros H. unfold two_calls, bind. now rewrite (H w). Qed.

End Heap.

(** ** The constructors build the framed payload *)

Section Constructors.

Lemma construct_eq (self : protocol) (cmd : command) :
  construct self cmd
  = (let* raw_bytes := bytearray (payload self cmd) in
     construct_message self raw_bytes).
Proof. destruct cmd as [|[]|[]], self; reflexivity. Qed.

Lemma is_byte_value (m : LevelWriteMode) : is_byte (value m) = true.
Proof. now destruct m. Qed.

Lemma payload_bytes (self : protocol) (cmd : command) :
  forallb is_byte (payload self cmd) = forallb is_byte (encoded_channels self cmd).
Proof.
  destruct cmd as [|[]|[] r g b ww cw m], self; try reflexivity;
    cbn [payload encoded_channels forallb persist_byte];
    rewrite ?is_byte_value, ?andb_true_r; reflexivity.
Qed.

Lemma encoded_in_channels (self : protocol) (cmd : command) :
  Forall in_range (channels cmd) -> Forall in_range (encoded_channels self cmd).
Proof.
  destruct cmd as [| |p r g b ww cw m]; [destruct self; constructor ..|].
  cbn [channels]. rewrite !Forall_cons.
  intros (?&?&?&?&?&_).
  destruct self; cbn [encoded_channels];
    repeat (constructor; [assumption|]); constructor.
Qed.

Lemma construct_builds (self : protocol) (cmd : command) :
  Forall in_range (encoded_channels self cmd) ->
  builds (construct self cmd) (framed self (payload self cmd)).
Proof.
  intros H. rewrite construct_eq. apply construct_message_builds.
  rewrite payload_bytes. now apply forallb_is_byte_Forall.
Qed.

Lemma construct_fails (self : protocol) (cmd : command) :
  ~ Forall in_range (encoded_channels self cmd) ->
  fails (construct self cmd) ValueError.
Proof.
  intros H. rewrite construct_eq. apply construct_message_fails.
  rewrite payload_bytes.
  destruct (forallb is_byte (encoded_channels self cmd)) eqn:E; [|reflexivity].
  now apply forallb_is_byte_Forall in E.
Qed.

End Constructors.

(** ** Validation of a state response *)

Section Validation.

Lemma getitem_lookup (l : list Z) (i : nat) (x : Z) :
  l !! i = Some x -> getitem l (Z.of_nat i) = Ok x.
Proof.
  intros H. pose proof (lookup_lt_Some _ _ _ H) as Hlt.
  unfold getitem, len.
  destruct (Z.ltb_spec (Z.of_nat i) 0) as [?|_]; [lia|].
  destruct (Z.ltb_spec (Z.of_nat i) 0) as [?|_]; [lia|].
  destruct (Z.leb_spec (Z.of_nat (length l)) (Z.of_nat i)) as [?|_]; [lia|].
  cbn [orb]. rewrite (Nat2Z.id i). now rewrite H.
Qed.

Lemma len_length (l : list Z) (n : nat) :
  (len l =? Z.of_nat n) = true <-> length l = n.
Proof. unfold len. rewrite Z.eqb_eq. lia. Qed.

(** A sequence of fourteen items is a first item, twelve more, and a last
    one. *)
Lemma fourteen (raw : list Z) :
  length raw = 14%nat ->
  exists b0 rest last, raw = (b0 :: rest) ++ [last] /\ length rest = 12%nat.
Proof.
  intros H.
  do 14 (destruct raw as [|? raw]; [discriminate H|]).
  destruct raw; [|discriminate H].
  eexists _, [_; _; _; _; _; _; _; _; _; _; _; _], _. split; reflexivity.
Qed.

Lemma original_valid (raw : list Z) (w : world) :
  is_valid_state_response ProtocolLEDENETOriginal raw w
  = (Ok ((len raw =? 11)
         && match raw !! 1%nat with Some b1 => b1 =? 0x01 | None => false end),
     w).
Proof.
  cbn [is_valid_state_response].
  unfold ProtocolLEDENETOriginal_is_valid_state_response.
  cbn [state_response_length].
  unfold ProtocolLEDENETOriginal_state_response_length,
    LEDENET_ORIGINAL_STATE_RESPONSE_LEN.
  destruct (len raw =? 11) eqn:E; [|reflexivity].
  apply (len_length raw 11) in E.
  destruct raw as [|b0 [|b1 raw]]; [discriminate E ..|].
  pose proof (getitem_lookup (b0 :: b1 :: raw) 1 b1 eq_refl) as Hg.
  change (Z.of_nat 1) with 1 in Hg.
  unfold bind, lift, ret. now rewrite Hg.
Qed.

Lemma checksummed_valid_eq (self : protocol) :
  checksummed self = true ->
  is_valid_state_response self
  = ProtocolLEDENET8Byte_is_valid_state_response self
  /\ state_response_length self = 14.
Proof. destruct self; [discriminate|split; reflexivity ..]. Qed.

Lemma checksummed_wrong_length (self : protocol) (raw : list Z) (w : world) :
  checksummed self = true -> length raw <> 14%nat ->
  is_valid_state_response self raw w = (Ok false, w).
Proof.
  intros Hc Hl. destruct (checksummed_valid_eq self Hc) as [-> Hn].
  unfold ProtocolLEDENET8Byte_is_valid_state_response. rewrite Hn.
  destruct (len raw =? 14) eqn:E; [|reflexivity].
  now apply (len_length raw 14) in E.
Qed.

Lemma checksummed_valid (self : protocol) (b0 last : Z) (rest : list Z)
    (w : world) :
  checksummed self = true -> length rest = 12%nat ->
  is_valid_state_response self ((b0 :: rest) ++ [last]) w
  = if negb (b0 =? 0x81) then (Ok false, w)
    else if checksum (b0 :: rest) =? last then (Ok true, w)
    else (Ok false,
          World (heap w)
                (log w ++ [checksum_mismatch (checksum (b0 :: rest)) last])).
Proof.
  intros Hc Hl. destruct (checksummed_valid_eq self Hc) as [-> Hn].
  unfold ProtocolLEDENET8Byte_is_valid_state_response. rewrite Hn.
  assert ((len ((b0 :: rest) ++ [last]) =? 14) = true) as ->.
  { apply (len_length _ 14). rewrite length_app. simpl. lia. }
  pose proof (getitem_lookup ((b0 :: rest) ++ [last]) 0 b0 eq_refl) as Hg.
  change (Z.of_nat 0) with 0 in Hg.
  cbn [negb]. unfold bind, lift, ret. rewrite Hg.
  destruct (b0 =? 0x81); [|reflexivity]. cbn [negb].
  rewrite getitem_last, slice_init, land_0xFF. fold (checksum (b0 :: rest)).
  destruct (checksum (b0 :: rest) =? last); reflexivity.
Qed.

End Validation.

(** ** The messages of the module's comments, and aliasing *)

Example original_state_query :
  message_of (construct_state_query ProtocolLEDENETOriginal) (World [] [])
  = Ok [0xEF; 0x01; 0x77].
Proof. reflexivity. Qed.

Example ledenet_state_query :
  message_of (construct_state_query ProtocolLEDENET8Byte) (World [] [])
  = Ok [0x81; 0x8A; 0x8B; 0x96].
Proof. reflexivity. Qed.

(** construct_message of the checksummed protocols changes its argument:
    called twice on one bytearray it appends two checksums to it. *)
Example construct_message_in_place :
  message_of (let* raw_bytes := bytearray [0x71; 0x23; 0x0F] in
              let* _ := construct_message ProtocolLEDENET8Byte raw_bytes in
              construct_message ProtocolLEDENET8Byte raw_bytes)
             (World [] [])
  = Ok [0x71; 0x23; 0x0F; 0xA3; 0x46].
Proof. reflexivity. Qed.

(** A checksum that is off by one is rejected, and logged. *)
Example checksum_off_by_one :
  is_valid_state_response ProtocolLEDENET9Byte
    [0x81; 0x25; 0x23; 0x61; 0x21; 0x06; 0x38; 0x05; 0x06; 0xF9; 0x01; 0x00;
     0x0F; 0x9E] (World [] [])
  = (Ok false, World [] [checksum_mismatch 0x9D 0x9E]).
Proof. reflexivity. Qed.

(** ** Properties of the protocols *)

(** C1. For the 8-Byte and 9-Byte variants, every message returned by
    construct_state_query, construct_state_change or construct_levels_change
    (channel arguments in 0..255, any LevelWriteMode) is some bytes [bs]
    followed by one byte, [sum bs mod 256]; read the way the spec writes it,
    [sum(m[0:-1]) mod 256 == m[-1]] evaluates to True on the message. *)
Theorem checksummed_message_ends_in_checksum
    (self : protocol) (cmd : command) (w : world) :
  checksummed self = true ->
  Forall in_range (channels cmd) ->
  exists bs m,
    message_of (construct self cmd) w = Ok m
    /\ m = bs ++ [sum bs mod 256]
    /\ trailing_checksum_ok m = Ok true.
Proof.
  intros Hc Hr. exists (payload self cmd), (framed self (payload self cmd)).
  split; [|split].
  - apply builds_message_of, construct_builds.
    now apply encoded_in_channels.
  - destruct self; [discriminate Hc|reflexivity ..].
  - destruct self; [discriminate Hc|apply trailing_checksum_framed ..].
Qed.

Lemma checksummed_message_ends_in_checksum_witness :
  exists bs m,
    message_of (construct ProtocolLEDENET9Byte
                          (LevelsChange true 0xBC 0xC1 0xFF 0x00 0x00 COLORS))
               (World [] []) = Ok m
    /\ m = bs ++ [sum bs mod 256]
    /\ trailing_checksum_ok m = Ok true.
Proof.
  apply checksummed_message_ends_in_checksum;
    [reflexivity | apply forallb_is_byte_Forall; reflexivity].
Defined.

(** C2. A 14-byte sequence whose first byte is 0x81 and whose last byte is
    the sum of the first 13 bytes modulo 256 is accepted by the 8-Byte
    variant's is_valid_state_response, and named_raw_state maps it onto a
    LEDENETRawState whose fourteen fields, in the order of the namedtuple,
    are the fourteen bytes. *)
Theorem valid_response_round_trip (raw_state : list Z) (w : world) :
  length raw_state = 14%nat ->
  raw_state !! 0%nat = Some 0x81 ->
  raw_state !! 13%nat = Some (sum (take 13 raw_state) mod 256) ->
  is_valid_state_response ProtocolLEDENET8Byte raw_state w = (Ok true, w)
  /\ exists s,
       named_raw_state ProtocolLEDENET8Byte raw_state = Ok (RawState s)
       /\ [LEDENETRawState.head s; LEDENETRawState.model_num s;
           LEDENETRawState.power_state s; LEDENETRawState.preset_pattern s;
           LEDENETRawState.mode s; LEDENETRawState.speed s;
           LEDENETRawState.red s; LEDENETRawState.green s;
           LEDENETRawState.blue s; LEDENETRawState.warm_white s;
           LEDENETRawState.version_number s; LEDENETRawState.cool_white s;
           LEDENETRawState.color_mode s; LEDENETRawState.check_sum s]
          = raw_state.
Proof.
  intros Hlen Hhead Hsum. split.
  - destruct (fourteen raw_state Hlen) as (b0 & rest & last & Heq & Hrest).
    subst raw_state.
    rewrite (checksummed_valid ProtocolLEDENET8Byte b0 last rest w eq_refl Hrest).
    assert ((b0 =? 0x81) = true) as ->
      by (apply Z.eqb_eq; injection Hhead; trivial).
    cbn [negb].
    change 13%nat with (S 12) in Hsum.
    rewrite <- Hrest in Hsum.
    change (S (length rest)) with (length (b0 :: rest)) in Hsum.
    rewrite list_lookup_middle in Hsum by reflexivity.
    rewrite take_app_length in Hsum.
    injection Hsum as Hsum. unfold checksum. rewrite <- Hsum.
    now rewrite Z.eqb_refl.
  - do 14 (destruct raw_state as [|? raw_state]; [discriminate Hlen|]).
    destruct raw_state; [|discriminate Hlen].
    eexists. split; reflexivity.
Qed.

Lemma valid_response_round_trip_witness :
  is_valid_state_response ProtocolLEDENET8Byte
    [0x81; 0x25; 0x23; 0x61; 0x21; 0x06; 0x38; 0x05; 0x06; 0xF9; 0x01; 0x00;
     0x0F; 0x9D] (World [] [])
  = (Ok true, World [] [])
  /\ exists s,
       named_raw_state ProtocolLEDENET8Byte
         [0x81; 0x25; 0x23; 0x61; 0x21; 0x06; 0x38; 0x05; 0x06; 0xF9; 0x01;
          0x00; 0x0F; 0x9D]
       = Ok (RawState s)
       /\ [LEDENETRawState.head s; LEDENETRawState.model_num s;
           LEDENETRawState.power_state s; LEDENETRawState.preset_pattern s;
           LEDENETRawState.mode s; LEDENETRawState.speed s;
           LEDENETRawState.red s; LEDENETRawState.green s;
           LEDENETRawState.blue s; LEDENETRawState.warm_white s;
           LEDENETRawState.version_number s; LEDENETRawState.cool_white s;
           LEDENETRawState.color_mode s; LEDENETRawState.check_sum s]
          = [0x81; 0x25; 0x23; 0x61; 0x21; 0x06; 0x38; 0x05; 0x06; 0xF9; 0x01;
             0x00; 0x0F; 0x9D].
Proof. apply valid_response_round_trip; reflexivity. Defined.

(** C3. The Original variant's is_valid_state_response returns a boolean on
    every sequence, and that boolean is True exactly when the sequence has
    11 items and the item at index 1 is 0x01; so an 11-byte response whose
    byte at index 1 is not 0x01 yields False. *)
Theorem original_valid_iff (raw_state : list Z) (w : world) :
  exists b,
    is_valid_state_response ProtocolLEDENETOriginal raw_state w = (Ok b, w)
    /\ (b = true <-> length raw_state = 11%nat /\ raw_state !! 1%nat = Some 0x01)
    /\ (length raw_state = 11%nat -> raw_state !! 1%nat <> Some 0x01 -> b = false).
Proof.
  eexists. split; [apply original_valid|].
  assert (forall b : bool, (b = true <-> length raw_state = 11%nat
                                  /\ raw_state !! 1%nat = Some 0x01) ->
            (b = true <-> length raw_state = 11%nat
                          /\ raw_state !! 1%nat = Some 0x01)
            /\ (length raw_state = 11%nat ->
                raw_state !! 1%nat <> Some 0x01 -> b = false)) as Hpart.
  { intros [] Hb; (split; [exact Hb|]); intros Hl Hn; [|reflexivity].
    exfalso. apply Hn, Hb. reflexivity. }
  apply Hpart.
  rewrite andb_true_iff, (len_length raw_state 11).
  destruct (raw_state !! 1%nat) as [b1|].
  - rewrite Z.eqb_eq. split; intros [? ?]; (split; [assumption|congruence]).
  - split; intros [? ?]; discriminate.
Qed.

Lemma original_valid_iff_witness :
  exists b,
    is_valid_state_response ProtocolLEDENETOriginal
      [0x66; 0x02; 0x24; 0x39; 0x21; 0x0A; 0xFF; 0x00; 0x00; 0x01; 0x99]
      (World [] [])
    = (Ok b, World [] [])
    /\ b = false.
Proof.
  destruct (original_valid_iff
              [0x66; 0x02; 0x24; 0x39; 0x21; 0x0A; 0xFF; 0x00; 0x00; 0x01; 0x99]
              (World [] [])) as (b & Hrun & _ & Hfalse).
  exists b. split; [exact Hrun|].
  apply Hfalse; [reflexivity|discriminate].
Defined.

(** C4. The 9-Byte variant inherits construct_state_query,
    construct_state_change, construct_message and is_valid_state_response
    from the 8-Byte variant: on every input and in every world they return
    the same result and leave the same world (state_response_length and
    named_raw_state are inherited as well).  Its own
    construct_levels_change returns
    [0x31 if persist else 0x41, red, green, blue, warm_white, cool_white,
    mode code, 0x0F] followed by the checksum of these eight bytes, where the
    8-Byte variant returns another message; for persist=True, red=0xBC,
    green=0xC1, blue=0xFF, both whites 0 and mode COLORS the message is
    [0x31, 0xBC, 0xC1, 0xFF, 0x00, 0x00, 0xF0, 0x0F, 0xAC]. *)
Theorem ledenet9_inherits_ledenet8
    (persist : bool) (red green blue warm_white cool_white : Z)
    (write_mode : LevelWriteMode) (w : world) :
  in_range red -> in_range green -> in_range blue ->
  in_range warm_white -> in_range cool_white ->
  (forall w',
      construct_state_query ProtocolLEDENET9Byte w'
      = construct_state_query ProtocolLEDENET8Byte w')
  /\ (forall turn_on w',
         construct_state_change ProtocolLEDENET9Byte turn_on w'
         = construct_state_change ProtocolLEDENET8Byte turn_on w')
  /\ (forall raw_bytes w',
         construct_message ProtocolLEDENET9Byte raw_bytes w'
         = construct_message ProtocolLEDENET8Byte raw_bytes w')
  /\ (forall raw_state w',
         is_valid_state_response ProtocolLEDENET9Byte raw_state w'
         = is_valid_state_response ProtocolLEDENET8Byte raw_state w')
  /\ state_response_length ProtocolLEDENET9Byte
     = state_response_length ProtocolLEDENET8Byte
  /\ (forall raw_state,
         named_raw_state ProtocolLEDENET9Byte raw_state
         = named_raw_state ProtocolLEDENET8Byte raw_state)
  /\ message_of (construct_levels_change ProtocolLEDENET9Byte persist red green
                   blue warm_white cool_white write_mode) w
     = Ok [if persist then 0x31 else 0x41; red; green; blue; warm_white;
           cool_white; value write_mode; 0x0F;
           ((if persist then 0x31 else 0x41) + red + green + blue + warm_white
            + cool_white + value write_mode + 0x0F) mod 256]
  /\ message_of (construct_levels_change ProtocolLEDENET9Byte true 0xBC 0xC1
                   0xFF 0x00 0x00 COLORS) w
     = Ok [0x31; 0xBC; 0xC1; 0xFF; 0x00; 0x00; 0xF0; 0x0F; 0xAC]
  /\ message_of (construct_levels_change ProtocolLEDENET8Byte persist red green
                   blue warm_white cool_white write_mode) w
     <> message_of (construct_levels_change ProtocolLEDENET9Byte persist red
                      green blue warm_white cool_white write_mode) w.
Proof.
  intros Hr Hg Hb Hww Hcw.
  set (cmd := LevelsChange persist red green blue warm_white cool_white write_mode).
  assert (Forall in_range (channels cmd)) as Hch
    by (repeat (constructor; [assumption|]); constructor).
  assert (forall self,
             message_of (construct_levels_change self persist red green blue
                           warm_white cool_white write_mode) w
             = Ok (framed self (payload self cmd))) as Hmsg.
  { intros self. apply (builds_message_of (construct self cmd)), construct_builds.
    now apply encoded_in_channels. }
  repeat split; try reflexivity.
  - rewrite Hmsg. cbn [framed payload cmd app]. unfold checksum, persist_byte.
    now rewrite sum_eight.
  - apply (builds_message_of
             (construct ProtocolLEDENET9Byte
                        (LevelsChange true 0xBC 0xC1 0xFF 0x00 0x00 COLORS))
             [0x31; 0xBC; 0xC1; 0xFF; 0x00; 0x00; 0xF0; 0x0F; 0xAC] w).
    apply construct_builds, forallb_is_byte_Forall. reflexivity.
  - rewrite !Hmsg. intros Heq.
    apply (f_equal (fun r => match r with
                             | Ok m => length m
                             | Raise _ => 0%nat
                             end)) in Heq.
    discriminate Heq.
Qed.

Lemma ledenet9_inherits_ledenet8_witness :
  message_of (construct_levels_change ProtocolLEDENET9Byte false 1 2 3 4 5
                WHITES) (World [] [])
  = Ok [0x41; 1; 2; 3; 4; 5; 0x0F; 0x0F; 0x6E].
Proof.
  destruct (ledenet9_inherits_ledenet8 false 1 2 3 4 5 WHITES (World [] []))
    as (_ & _ & _ & _ & _ & _ & Hmsg & _); try (unfold in_range; lia).
  exact Hmsg.
Defined.

(** C5. construct_state_change writes 0x23 for power-on and 0x24 for
    power-off in every variant: the Original variant returns
    [0xCC, 0x23 or 0x24, 0x33] and nothing more, the 8-Byte and 9-Byte
    variants return [0x71, 0x23 or 0x24, 0x0F] followed by the checksum of
    these three bytes, and the 8-Byte variant's message for turn_on=True is
    [0x71, 0x23, 0x0F, 0xA3]. *)
Theorem state_change_messages (turn_on : bool) (w : world) :
  message_of (construct_state_change ProtocolLEDENETOriginal turn_on) w
  = Ok [0xCC; if turn_on then 0x23 else 0x24; 0x33]
  /\ message_of (construct_state_change ProtocolLEDENET8Byte turn_on) w
     = Ok [0x71; if turn_on then 0x23 else 0x24; 0x0F;
           (0x71 + (if turn_on then 0x23 else 0x24) + 0x0F) mod 256]
  /\ message_of (construct_state_change ProtocolLEDENET9Byte turn_on) w
     = Ok [0x71; if turn_on then 0x23 else 0x24; 0x0F;
           (0x71 + (if turn_on then 0x23 else 0x24) + 0x0F) mod 256]
  /\ message_of (construct_state_change ProtocolLEDENET8Byte true) w
     = Ok [0x71; 0x23; 0x0F; 0xA3].
Proof.
  assert (forall self t,
             message_of (construct_state_change self t) w
             = Ok (framed self (payload self (StateChange t)))) as Hmsg.
  { intros self t.
    apply (builds_message_of (construct self (StateChange t))), construct_builds.
    destruct self; constructor. }
  rewrite !Hmsg. cbn [framed payload app]. unfold checksum, power_byte.
  rewrite !sum_three. repeat split; reflexivity.
Qed.

(** C6. state_response_length is 11 for the Original variant and 14 for the
    8-Byte and 9-Byte variants, and on a sequence of any other length (the
    empty one too) is_valid_state_response of the variant returns False: it
    raises nothing and changes nothing. *)
Theorem wrong_length_is_rejected
    (self : protocol) (raw_state : list Z) (w : world) :
  state_response_length ProtocolLEDENETOriginal = 11
  /\ state_response_length ProtocolLEDENET8Byte = 14
  /\ state_response_length ProtocolLEDENET9Byte = 14
  /\ (Z.of_nat (length raw_state) <> state_response_length self ->
      is_valid_state_response self raw_state w = (Ok false, w)).
Proof.
  repeat split. intros Hlen. destruct self.
  - rewrite original_valid.
    assert ((len raw_state =? 11) = false) as -> by (now apply Z.eqb_neq).
    reflexivity.
  - apply checksummed_wrong_length; [reflexivity|].
    intros H. apply Hlen. rewrite H. reflexivity.
  - apply checksummed_wrong_length; [reflexivity|].
    intros H. apply Hlen. rewrite H. reflexivity.
Qed.

Lemma wrong_length_is_rejected_witness :
  is_valid_state_response ProtocolLEDENET8Byte [] (World [] [])
  = (Ok false, World [] [])
  /\ is_valid_state_response ProtocolLEDENETOriginal [0x66] (World [] [])
     = (Ok false, World [] []).
Proof.
  split.
  - apply (wrong_length_is_rejected ProtocolLEDENET8Byte [] (World [] [])).
    discriminate.
  - apply (wrong_length_is_rejected ProtocolLEDENETOriginal [0x66] (World [] [])).
    discriminate.
Defined.

(** C8. For red, green and blue in 0..255 the Original variant's
    construct_levels_change returns the five bytes
    [0x56, red, green, blue, 0xAA], with no checksum, whatever persist, the
    two white values and the mode-selector are: two calls that differ in
    these four arguments only return the same message. *)
Theorem original_levels_change_rgb_only
    (persist persist' : bool) (red green blue : Z)
    (warm_white cool_white warm_white' cool_white' : Z)
    (color_mask color_mask' : LevelWriteMode) (w : world) :
  in_range red -> in_range green -> in_range blue ->
  message_of (construct_levels_change ProtocolLEDENETOriginal persist red green
                blue warm_white cool_white color_mask) w
  = Ok [0x56; red; green; blue; 0xAA]
  /\ message_of (construct_levels_change ProtocolLEDENETOriginal persist' red
                   green blue warm_white' cool_white' color_mask') w
     = message_of (construct_levels_change ProtocolLEDENETOriginal persist red
                     green blue warm_white cool_white color_mask) w.
Proof.
  intros Hr Hg Hb.
  assert (forall p ww cw m,
             message_of (construct_levels_change ProtocolLEDENETOriginal p red
                           green blue ww cw m) w
             = Ok [0x56; red; green; blue; 0xAA]) as Hmsg.
  { intros p ww cw m.
    apply (builds_message_of
             (construct ProtocolLEDENETOriginal
                        (LevelsChange p red green blue ww cw m))
             [0x56; red; green; blue; 0xAA] w).
    apply (construct_builds ProtocolLEDENETOriginal
                            (LevelsChange p red green blue ww cw m)).
    cbn [encoded_channels]. repeat (constructor; [assumption|]). constructor. }
  now rewrite !Hmsg.
Qed.

Lemma original_levels_change_rgb_only_witness :
  message_of (construct_levels_change ProtocolLEDENETOriginal true 0x90 0xFA
                0x77 (-1) 1000 WHITES) (World [[7]] [])
  = Ok [0x56; 0x90; 0xFA; 0x77; 0xAA]
  /\ message_of (construct_levels_change ProtocolLEDENETOriginal false 0x90
                   0xFA 0x77 0 255 ALL) (World [[7]] [])
     = message_of (construct_levels_change ProtocolLEDENETOriginal true 0x90
                     0xFA 0x77 (-1) 1000 WHITES) (World [[7]] []).
Proof.
  apply original_levels_change_rgb_only; unfold in_range; lia.
Defined.

(** C7, counterexample.  The Original variant never reads the byte at
    index 0, the head of the message: responses that differ in it are accepted alike, so no value of
    the head is the one an accepted Original response must carry. *)
Lemma original_accepts_any_head :
  ~ (exists head : Z,
        forall (raw_state : list Z) (w : world),
          is_valid_state_response ProtocolLEDENETOriginal raw_state w
          = (Ok true, w) ->
          raw_state !! 0%nat = Some head).
Proof.
  intros [head H].
  pose proof (H [0x66; 0x01; 0x24; 0x39; 0x21; 0x0A; 0xFF; 0x00; 0x00; 0x01; 0x99]
                (World [] []) eq_refl) as H1.
  pose proof (H [0x00; 0x01; 0x24; 0x39; 0x21; 0x0A; 0xFF; 0x00; 0x00; 0x01; 0x99]
                (World [] []) eq_refl) as H2.
  cbn in H1, H2. congruence.
Qed.

(** C7, as the code has it.  A sequence accepted by is_valid_state_response
    carries the marker its variant checks: for the Original variant it has
    11 items and 0x01 at index 1 (the byte at index 0 is not looked at); for
    the 8-Byte and 9-Byte variants it has 14 items, 0x81 at index 0, and a
    last byte equal to the sum of the thirteen bytes before it modulo 256. *)
Theorem accepted_response_shape
    (self : protocol) (raw_state : list Z) (w w' : world) :
  is_valid_state_response self raw_state w = (Ok true, w') ->
  match self with
  | ProtocolLEDENETOriginal =>
      length raw_state = 11%nat /\ raw_state !! 1%nat = Some 0x01
  | ProtocolLEDENET8Byte | ProtocolLEDENET9Byte =>
      length raw_state = 14%nat
      /\ raw_state !! 0%nat = Some 0x81
      /\ raw_state !! 13%nat = Some (sum (take 13 raw_state) mod 256)
  end.
Proof.
  intros Hv.
  assert (forall self', checksummed self' = true ->
            is_valid_state_response self' raw_state w = (Ok true, w') ->
            length raw_state = 14%nat
            /\ raw_state !! 0%nat = Some 0x81
            /\ raw_state !! 13%nat = Some (sum (take 13 raw_state) mod 256))
    as Hsum.
  { intros self' Hc Hv'.
    destruct (Nat.eq_dec (length raw_state) 14%nat) as [Hlen|Hlen].
    - split; [exact Hlen|].
      destruct (fourteen raw_state Hlen) as (b0 & rest & last & Heq & Hrest).
      subst raw_state.
      rewrite (checksummed_valid self' b0 last rest w Hc Hrest) in Hv'.
      destruct (Z.eqb_spec b0 0x81) as [Hb0|_]; [|discriminate Hv'].
      cbn [negb] in Hv'.
      destruct (Z.eqb_spec (checksum (b0 :: rest)) last) as [Hck|_];
        [|discriminate Hv'].
      split; [now rewrite Hb0|].
      change 13%nat with (S 12). rewrite <- Hrest.
      change (S (length rest)) with (length (b0 :: rest)).
      rewrite list_lookup_middle by reflexivity.
      rewrite take_app_length. now rewrite <- Hck.
    - rewrite (checksummed_wrong_length self' raw_state w Hc Hlen) in Hv'.
      discriminate Hv'. }
  destruct self; [|now apply (Hsum ProtocolLEDENET8Byte)
                   |now apply (Hsum ProtocolLEDENET9Byte)].
  rewrite original_valid in Hv. injection Hv as Hb _.
  apply andb_true_iff in Hb as [Hlen Hb1].
  apply (len_length raw_state 11) in Hlen. split; [exact Hlen|].
  destruct (raw_state !! 1%nat) as [b1|]; [|discriminate Hb1].
  apply Z.eqb_eq in Hb1. now rewrite Hb1.
Qed.

Lemma accepted_response_shape_witness :
  length [0x81; 0x25; 0x23; 0x61; 0x21; 0x06; 0x38; 0x05; 0x06; 0xF9; 0x01;
          0x00; 0x0F; 0x9D] = 14%nat
  /\ [0x81; 0x25; 0x23; 0x61; 0x21; 0x06; 0x38; 0x05; 0x06; 0xF9; 0x01; 0x00;
      0x0F; 0x9D] !! 0%nat = Some 0x81
  /\ [0x81; 0x25; 0x23; 0x61; 0x21; 0x06; 0x38; 0x05; 0x06; 0xF9; 0x01; 0x00;
      0x0F; 0x9D] !! 13%nat
     = Some (sum (take 13 [0x81; 0x25; 0x23; 0x61; 0x21; 0x06; 0x38; 0x05;
                           0x06; 0xF9; 0x01; 0x00; 0x0F; 0x9D]) mod 256).
Proof.
  apply (accepted_response_shape ProtocolLEDENET9Byte
           [0x81; 0x25; 0x23; 0x61; 0x21; 0x06; 0x38; 0x05; 0x06; 0xF9; 0x01;
            0x00; 0x0F; 0x9D] (World [] []) (World [] [])).
  reflexivity.
Defined.

(** C9. What construct_state_query, construct_state_change and
    construct_levels_change return depends on the variant and the arguments
    only: the same call made in any two worlds (any heap of bytearrays, any
    log) gives the same message or raises the same exception, and two calls
    in a row return two messages that are item for item the same, the second
    call leaving the message of the first as it was. *)
Theorem constructors_deterministic
    (self : protocol) (cmd : command) (w1 w2 : world) :
  message_of (construct self cmd) w1 = message_of (construct self cmd) w2
  /\ two_calls (construct self cmd) w1
     = match message_of (construct self cmd) w1 with
       | Ok m => Ok (m, m)
       | Raise e => Raise e
       end.
Proof.
  destruct (forallb is_byte (encoded_channels self cmd)) eqn:E.
  - apply forallb_is_byte_Forall in E.
    pose proof (construct_builds self cmd E) as Hb.
    rewrite !(builds_message_of _ _ _ Hb), (builds_two_calls _ _ _ Hb).
    split; reflexivity.
  - assert (~ Forall in_range (encoded_channels self cmd)) as Hn.
    { intros H. apply forallb_is_byte_Forall in H. congruence. }
    pose proof (construct_fails self cmd Hn) as Hf.
    rewrite !(fails_message_of _ _ _ Hf), (fails_two_calls _ _ _ Hf).
    split; reflexivity.
Qed.

(** C10, counterexample.  The Original variant writes no white channel:
    with a warm_white of 256
    its construct_levels_change still returns its five bytes, so a channel
    value outside 0..255 does not make every variant fail. *)
Lemma original_levels_change_accepts_any_white :
  ~ (forall (self : protocol) (persist : bool)
            (red green blue warm_white cool_white : Z)
            (write_mode : LevelWriteMode) (w : world),
        ~ Forall in_range [red; green; blue; warm_white; cool_white] ->
        exists e,
          message_of (construct_levels_change self persist red green blue
                        warm_white cool_white write_mode) w
          = Raise e).
Proof.
  intros H.
  destruct (H ProtocolLEDENETOriginal true 0x90 0xFA 0x77 256 0 ALL (World [] []))
    as [e He].
  - intros F. apply forallb_is_byte_Forall in F. discriminate F.
  - discriminate He.
Qed.

(** C10, as the code has it.  construct_levels_change of a variant returns
    a message exactly when the channels the variant writes (red, green and
    blue; warm_white too for the 8-Byte and 9-Byte variants; cool_white too
    for the 9-Byte variant) are in 0..255, whatever the LevelWriteMode: the
    message then has 5, 8 or 9 items (Original, 8-Byte, 9-Byte), each in
    0..255.  When one of these channels is outside 0..255 the call raises
    ValueError.  A channel the variant does not write may hold any value. *)
Theorem levels_change_total_on_encoded_channels
    (self : protocol) (persist : bool)
    (red green blue warm_white cool_white : Z) (write_mode : LevelWriteMode)
    (w : world) :
  (Forall in_range
     (match self with
      | ProtocolLEDENETOriginal => [red; green; blue]
      | ProtocolLEDENET8Byte => [red; green; blue; warm_white]
      | ProtocolLEDENET9Byte => [red; green; blue; warm_white; cool_white]
      end) ->
   exists m,
     message_of (construct_levels_change self persist red green blue
                   warm_white cool_white write_mode) w = Ok m
     /\ Forall in_range m
     /\ length m = match self with
                   | ProtocolLEDENETOriginal => 5%nat
                   | ProtocolLEDENET8Byte => 8%nat
                   | ProtocolLEDENET9Byte => 9%nat
                   end)
  /\ (~ Forall in_range
        (match self with
         | ProtocolLEDENETOriginal => [red; green; blue]
         | ProtocolLEDENET8Byte => [red; green; blue; warm_white]
         | ProtocolLEDENET9Byte => [red; green; blue; warm_white; cool_white]
         end) ->
      message_of (construct_levels_change self persist red green blue
                    warm_white cool_white write_mode) w = Raise ValueError).
Proof.
  set (cmd := LevelsChange persist red green blue warm_white cool_white write_mode).
  change (construct_levels_change self persist red green blue warm_white
            cool_white write_mode) with (construct self cmd).
  assert (match self with
          | ProtocolLEDENETOriginal => [red; green; blue]
          | ProtocolLEDENET8Byte => [red; green; blue; warm_white]
          | ProtocolLEDENET9Byte => [red; green; blue; warm_white; cool_white]
          end = encoded_channels self cmd) as -> by (now destruct self).
  split; intros H.
  - exists (framed self (payload self cmd)). split; [|split].
    + now apply builds_message_of, construct_builds.
    + apply framed_bytes, forallb_is_byte_Forall.
      rewrite payload_bytes. now apply forallb_is_byte_Forall.
    + destruct self; reflexivity.
  - now apply fails_message_of, construct_fails.
Qed.

Lemma levels_change_total_on_encoded_channels_witness :
  (exists m,
      message_of (construct_levels_change ProtocolLEDENET8Byte true 0x90 0xFA
                    0x77 0x00 (-1) WHITES) (World [] []) = Ok m
      /\ Forall in_range m
      /\ length m = 8%nat)
  /\ message_of (construct_levels_change ProtocolLEDENET8Byte true 0x90 0xFA
                   0x77 256 0 WHITES) (World [] []) = Raise ValueError.
Proof.
  split.
  - apply (proj1 (levels_change_total_on_encoded_channels
                    ProtocolLEDENET8Byte true 0x90 0xFA 0x77 0x00 (-1) WHITES
                    (World [] []))).
    apply forallb_is_byte_Forall. reflexivity.
  - apply (proj2 (levels_change_total_on_encoded_channels
                    ProtocolLEDENET8Byte true 0x90 0xFA 0x77 256 0 WHITES
                    (World [] []))).
    intros F. apply forallb_is_byte_Forall in F. discriminate F.
Defined.

(** ** More on sums, lookups and the constructors *)

Section Sums.

Lemma sum_from (l : list Z) (a : Z) : fold_left Z.add l a = a + sum l.
Proof.
  unfold sum. revert a. induction l as [|x l IH]; intros a; cbn [fold_left].
  - lia.
  - rewrite (IH (a + x)), (IH (0 + x)). lia.
Qed.

Lemma sum_cons (x : Z) (l : list Z) : sum (x :: l) = x + sum l.
Proof. unfold sum at 1. cbn [fold_left]. rewrite sum_from. lia. Qed.

Lemma sum_app (l k : list Z) : sum (l ++ k) = sum l + sum k.
Proof.
  induction l as [|x l IH]; [reflexivity|].
  rewrite <- app_comm_cons, !sum_cons, IH. lia.
Qed.

Lemma sum_insert (l : list Z) (i : nat) (old x : Z) :
  l !! i = Some old -> sum (<[i := x]> l) = sum l - old + x.
Proof.
  revert i. induction l as [|y l IH]; intros [|i] H; try discriminate H.
  - injection H as ->. change (<[0%nat := x]> (old :: l)) with (x :: l).
    rewrite !sum_cons. lia.
  - change (<[S i := x]> (y :: l)) with (y :: <[i := x]> l).
    change ((y :: l) !! S i) with (l !! i) in H.
    rewrite !sum_cons, (IH i H). lia.
Qed.

Lemma sum_Permutation (l k : list Z) : l ≡ₚ k -> sum l = sum k.
Proof.
  induction 1 as [|x l k _ IH|x y l|l k m _ IH1 _ IH2].
  - reflexivity.
  - now rewrite !sum_cons, IH.
  - rewrite !sum_cons. lia.
  - now rewrite IH1.
Qed.

(** Two bytes that differ do not have the same remainder modulo 256 once
    added to the same sum. *)
Lemma checksum_shift (s old x : Z) :
  in_range old -> in_range x -> old <> x ->
  (s - old + x) mod 256 <> s mod 256.
Proof. unfold in_range. intros Ho Hx Hne. Z.div_mod_to_equations. lia. Qed.

End Sums.

Section Responses.

Variable self : protocol.
Hypothesis Hself : checksummed self = true.

(** The verdict of a checksummed protocol on fourteen items, read off the
    items at index 0 and 13. *)
Lemma checksummed_verdict (raw : list Z) (w : world) :
  length raw = 14%nat ->
  exists b0 last,
    raw !! 0%nat = Some b0 /\ raw !! 13%nat = Some last
    /\ is_valid_state_response self raw w
       = if negb (b0 =? 0x81) then (Ok false, w)
         else if checksum (take 13 raw) =? last then (Ok true, w)
         else (Ok false,
               World (heap w)
                     (log w ++ [checksum_mismatch (checksum (take 13 raw)) last])).
Proof.
  intros Hlen.
  destruct (fourteen raw Hlen) as (b0 & rest & last & -> & Hrest).
  exists b0, last. split; [reflexivity|]. split.
  - change 13%nat with (S 12). rewrite <- Hrest.
    change (S (length rest)) with (length (b0 :: rest)).
    now apply list_lookup_middle.
  - change 13%nat with (S 12). rewrite <- Hrest.
    change (S (length rest)) with (length (b0 :: rest)).
    rewrite take_app_length.
    now apply checksummed_valid.
Qed.

Lemma checksummed_accepts (raw : list Z) (w w' : world) :
  is_valid_state_response self raw w = (Ok true, w') ->
  length raw = 14%nat /\ raw !! 0%nat = Some 0x81
  /\ raw !! 13%nat = Some (checksum (take 13 raw)) /\ w' = w.
Proof.
  intros Hv.
  destruct (Nat.eq_dec (length raw) 14%nat) as [Hlen|Hlen].
  - split; [exact Hlen|].
    destruct (checksummed_verdict raw w Hlen) as (b0 & last & H0 & H13 & Hrun).
    rewrite Hrun in Hv.
    destruct (Z.eqb_spec b0 0x81) as [Hb0|_]; [|discriminate Hv].
    cbn [negb] in Hv.
    destruct (Z.eqb_spec (checksum (take 13 raw)) last) as [Hck|_];
      [|discriminate Hv].
    injection Hv as <-. rewrite H0, H13, Hb0, Hck. repeat split.
  - rewrite (checksummed_wrong_length self raw w Hself Hlen) in Hv.
    discriminate Hv.
Qed.

End Responses.

Section Messages.

(** What a successful or a failed constructor call tells. *)
Lemma message_of_construct_Ok
    (self : protocol) (cmd : command) (w : world) (m : list Z) :
  message_of (construct self cmd) w = Ok m ->
  m = framed self (payload self cmd)
  /\ Forall in_range (encoded_channels self cmd).
Proof.
  intros H.
  destruct (forallb is_byte (encoded_channels self cmd)) eqn:E.
  - apply forallb_is_byte_Forall in E. split; [|exact E].
    rewrite (builds_message_of _ _ w (construct_builds self cmd E)) in H.
    congruence.
  - assert (~ Forall in_range (encoded_channels self cmd)) as Hn.
    { intros F. apply forallb_is_byte_Forall in F. congruence. }
    rewrite (fails_message_of _ _ w (construct_fails self cmd Hn)) in H.
    discriminate H.
Qed.


Lemma value_inj (m m' : LevelWriteMode) : value m = value m' -> m = m'.
Proof. destruct m, m'; intros H; try reflexivity; discriminate H. Qed.

Lemma persist_byte_inj (p p' : bool) : persist_byte p = persist_byte p' -> p = p'.
Proof. destruct p, p'; intros H; try reflexivity; discriminate H. Qed.

End Messages.

(** ** Parsing a state response *)

(** X1. When named_raw_state returns a namedtuple, its items in order are
    the items of the sequence it was given, the sequence has
    state_response_length items, and the namedtuple is the one of the
    class: LEDENETOriginalRawState for the Original protocol,
    LEDENETRawState for the checksummed ones. *)
Theorem named_raw_state_items
    (self : protocol) (raw_state : list Z) (s : raw_state_record) :
  named_raw_state self raw_state = Ok s ->
  raw_state_items s = raw_state
  /\ len raw_state = state_response_length self
  /\ match s with
     | OriginalRawState _ => self = ProtocolLEDENETOriginal
     | RawState _ => checksummed self = true
     end.
Proof.
  intros H.
  destruct self;
    repeat (destruct raw_state as [|? raw_state]; try discriminate H);
    injection H as <-; repeat split; reflexivity.
Qed.

Lemma named_raw_state_items_witness :
  raw_state_items
    (OriginalRawState
       (LEDENETOriginalRawState.mk 0x66 0x01 0x24 0x39 0x21 0x0A 0xFF 0x00
                                   0x00 0x01 0x99))
  = [0x66; 0x01; 0x24; 0x39; 0x21; 0x0A; 0xFF; 0x00; 0x00; 0x01; 0x99]
  /\ len [0x66; 0x01; 0x24; 0x39; 0x21; 0x0A; 0xFF; 0x00; 0x00; 0x01; 0x99]
     = state_response_length ProtocolLEDENETOriginal
  /\ ProtocolLEDENETOriginal = ProtocolLEDENETOriginal.
Proof.
  apply (named_raw_state_items ProtocolLEDENETOriginal
           [0x66; 0x01; 0x24; 0x39; 0x21; 0x0A; 0xFF; 0x00; 0x00; 0x01; 0x99]
           (OriginalRawState
              (LEDENETOriginalRawState.mk 0x66 0x01 0x24 0x39 0x21 0x0A 0xFF
                                          0x00 0x00 0x01 0x99))).
  reflexivity.
Defined.

(** X2. The other way round: the items of a namedtuple of a class, given to
    named_raw_state of that class, give the namedtuple back. *)
Theorem named_raw_state_of_items (self : protocol) (s : raw_state_record) :
  match s with
  | OriginalRawState _ => self = ProtocolLEDENETOriginal
  | RawState _ => checksummed self = true
  end ->
  named_raw_state self (raw_state_items s) = Ok s.
Proof.
  destruct s as [[]|[]]; intros H.
  - subst self. reflexivity.
  - destruct self; [discriminate H|reflexivity ..].
Qed.

Lemma named_raw_state_of_items_witness :
  named_raw_state ProtocolLEDENET9Byte
    (raw_state_items
       (RawState (LEDENETRawState.mk 0x81 0x25 0x23 0x61 0x21 0x06 0x38 0x05
                                     0x06 0xF9 0x01 0x00 0x0F 0x9D)))
  = Ok (RawState (LEDENETRawState.mk 0x81 0x25 0x23 0x61 0x21 0x06 0x38 0x05
                                     0x06 0xF9 0x01 0x00 0x0F 0x9D)).
Proof.
  apply (named_raw_state_of_items ProtocolLEDENET9Byte). reflexivity.
Defined.

(** X3. state_response_length of a class is the number of fields of its
    namedtuple, so named_raw_state returns a namedtuple on every sequence of
    state_response_length items and raises TypeError on every other
    sequence (the empty one too). *)
Theorem named_raw_state_length (self : protocol) (raw_state : list Z) :
  state_response_length self = Z.of_nat (length (raw_state_fields self))
  /\ (len raw_state = state_response_length self ->
      exists s, named_raw_state self raw_state = Ok s)
  /\ (len raw_state <> state_response_length self ->
      named_raw_state self raw_state = Raise TypeError).
Proof.
  split; [now destruct self|]. split; intros H.
  - unfold len in H.
    destruct self;
      [assert (length raw_state = 11%nat) as Hl
         by (change (state_response_length ProtocolLEDENETOriginal)
               with 11 in H; lia)
      |assert (length raw_state = 14%nat) as Hl
         by (change (state_response_length ProtocolLEDENET8Byte)
               with 14 in H; lia)
      |assert (length raw_state = 14%nat) as Hl
         by (change (state_response_length ProtocolLEDENET9Byte)
               with 14 in H; lia)];
      clear H;
      repeat (destruct raw_state as [|? raw_state]; try discriminate Hl);
      eexists; reflexivity.
  - destruct self;
      repeat (destruct raw_state as [|? raw_state];
              try reflexivity; try (exfalso; apply H; reflexivity)).
Qed.

Lemma named_raw_state_length_witness :
  (exists s,
      named_raw_state ProtocolLEDENETOriginal
        [0x66; 0x01; 0x24; 0x39; 0x21; 0x0A; 0xFF; 0x00; 0x00; 0x01; 0x99]
      = Ok s)
  /\ named_raw_state ProtocolLEDENET8Byte [] = Raise TypeError.
Proof.
  split.
  - apply (named_raw_state_length ProtocolLEDENETOriginal). reflexivity.
  - apply (named_raw_state_length ProtocolLEDENET8Byte). discriminate.
Defined.

(** X4. A response accepted by is_valid_state_response is parsed by
    named_raw_state of the same class without error, into a namedtuple whose
    items are the response; for the Original protocol its model_num is 0x01,
    for the checksummed protocols its head is 0x81 and its check_sum is the
    sum of its thirteen other fields modulo 256. *)
Theorem accepted_response_parses
    (self : protocol) (raw_state : list Z) (w w' : world) :
  is_valid_state_response self raw_state w = (Ok true, w') ->
  exists s,
    named_raw_state self raw_state = Ok s
    /\ raw_state_items s = raw_state
    /\ match s with
       | OriginalRawState o => LEDENETOriginalRawState.model_num o = 0x01
       | RawState r =>
           LEDENETRawState.head r = 0x81
           /\ LEDENETRawState.check_sum r
              = (LEDENETRawState.head r + LEDENETRawState.model_num r
                 + LEDENETRawState.power_state r
                 + LEDENETRawState.preset_pattern r + LEDENETRawState.mode r
                 + LEDENETRawState.speed r + LEDENETRawState.red r
                 + LEDENETRawState.green r + LEDENETRawState.blue r
                 + LEDENETRawState.warm_white r
                 + LEDENETRawState.version_number r
                 + LEDENETRawState.cool_white r
                 + LEDENETRawState.color_mode r) mod 256
       end.
Proof.
  intros Hv.
  assert (forall self', checksummed self' = true ->
            is_valid_state_response self' raw_state w = (Ok true, w') ->
            exists r,
              LEDENETRawState.new raw_state = Ok r
              /\ LEDENETRawState_items r = raw_state
              /\ LEDENETRawState.head r = 0x81
              /\ LEDENETRawState.check_sum r
                 = (LEDENETRawState.head r + LEDENETRawState.model_num r
                    + LEDENETRawState.power_state r
                    + LEDENETRawState.preset_pattern r + LEDENETRawState.mode r
                    + LEDENETRawState.speed r + LEDENETRawState.red r
                    + LEDENETRawState.green r + LEDENETRawState.blue r
                    + LEDENETRawState.warm_white r
                    + LEDENETRawState.version_number r
                    + LEDENETRawState.cool_white r
                    + LEDENETRawState.color_mode r) mod 256) as Hsum.
  { intros self' Hc Hv'.
    destruct (checksummed_accepts self' Hc raw_state w w' Hv')
      as (Hlen & H0 & H13 & _).
    do 14 (destruct raw_state as [|? raw_state]; [discriminate Hlen|]).
    destruct raw_state; [|discriminate Hlen].
    eexists. split; [reflexivity|]. split; [reflexivity|].
    injection H0 as ->. injection H13 as ->.
    split; [reflexivity|]. cbn [LEDENETRawState.head LEDENETRawState.model_num
      LEDENETRawState.power_state LEDENETRawState.preset_pattern
      LEDENETRawState.mode LEDENETRawState.speed LEDENETRawState.red
      LEDENETRawState.green LEDENETRawState.blue LEDENETRawState.warm_white
      LEDENETRawState.version_number LEDENETRawState.cool_white
      LEDENETRawState.color_mode LEDENETRawState.check_sum].
    unfold checksum. cbn [take firstn]. rewrite !sum_cons.
    f_equal. unfold sum. cbn [fold_left]. lia. }
  destruct self.
  - rewrite original_valid in Hv. injection Hv as Hb _.
    apply andb_true_iff in Hb as [Hlen Hb1].
    apply (len_length raw_state 11) in Hlen.
    do 11 (destruct raw_state as [|? raw_state]; [discriminate Hlen|]).
    destruct raw_state; [|discriminate Hlen].
    eexists. split; [reflexivity|]. split; [reflexivity|].
    now apply Z.eqb_eq in Hb1.
  - destruct (Hsum ProtocolLEDENET8Byte eq_refl Hv) as (r & Hr & Hi & Hh & Hc).
    exists (RawState r). cbn [named_raw_state].
    unfold ProtocolLEDENET8Byte_named_raw_state. rewrite Hr. auto.
  - destruct (Hsum ProtocolLEDENET9Byte eq_refl Hv) as (r & Hr & Hi & Hh & Hc).
    exists (RawState r). cbn [named_raw_state].
    unfold ProtocolLEDENET8Byte_named_raw_state. rewrite Hr. auto.
Qed.

Lemma accepted_response_parses_witness :
  exists s,
    named_raw_state ProtocolLEDENETOriginal
      [0x66; 0x01; 0x24; 0x39; 0x21; 0x0A; 0xFF; 0x00; 0x00; 0x01; 0x99]
    = Ok s
    /\ raw_state_items s
       = [0x66; 0x01; 0x24; 0x39; 0x21; 0x0A; 0xFF; 0x00; 0x00; 0x01; 0x99]
    /\ match s with
       | OriginalRawState o => LEDENETOriginalRawState.model_num o = 0x01
       | RawState r =>
           LEDENETRawState.head r = 0x81
           /\ LEDENETRawState.check_sum r
              = (LEDENETRawState.head r + LEDENETRawState.model_num r
                 + LEDENETRawState.power_state r
                 + LEDENETRawState.preset_pattern r + LEDENETRawState.mode r
                 + LEDENETRawState.speed r + LEDENETRawState.red r
                 + LEDENETRawState.green r + LEDENETRawState.blue r
                 + LEDENETRawState.warm_white r
                 + LEDENETRawState.version_number r
                 + LEDENETRawState.cool_white r
                 + LEDENETRawState.color_mode r) mod 256
       end.
Proof.
  apply (accepted_response_parses ProtocolLEDENETOriginal
           [0x66; 0x01; 0x24; 0x39; 0x21; 0x0A; 0xFF; 0x00; 0x00; 0x01; 0x99]
           (World [] []) (World [] [])).
  reflexivity.
Defined.

(** ** What validation does and what the checksum catches *)

(** X5. is_valid_state_response returns a boolean on every sequence: it
    raises nothing and leaves the bytearrays alone.  It logs in one case
    only, a response of a checksummed protocol with 14 items and head 0x81
    whose last byte is not the checksum: the verdict is then False and one
    record is added, with the expected checksum and the byte that was got.
    In every other case the world is left as it was. *)
Theorem validation_logs_checksum_faults
    (self : protocol) (raw_state : list Z) (w : world) :
  (exists b w',
      is_valid_state_response self raw_state w = (Ok b, w')
      /\ heap w' = heap w)
  /\ (checksum_fault self raw_state ->
      exists got,
        raw_state !! 13%nat = Some got
        /\ is_valid_state_response self raw_state w
           = (Ok false,
              World (heap w)
                    (log w ++ [checksum_mismatch
                                 (sum (take 13 raw_state) mod 256) got])))
  /\ (~ checksum_fault self raw_state ->
      exists b, is_valid_state_response self raw_state w = (Ok b, w)).
Proof.
  destruct (checksummed self) eqn:Hc.
  - destruct (Nat.eq_dec (length raw_state) 14%nat) as [Hlen|Hlen].
    + destruct (checksummed_verdict self Hc raw_state w Hlen)
        as (b0 & last & H0 & H13 & Hrun).
      rewrite Hrun. fold (checksum (take 13 raw_state)).
      destruct (Z.eqb_spec b0 0x81) as [Hb0|Hb0]; cbn [negb].
      * destruct (Z.eqb_spec (checksum (take 13 raw_state)) last) as [Hck|Hck].
        -- split; [eauto|]. split; [|eauto].
           intros (_ & _ & _ & Hne). exfalso. apply Hne.
           rewrite H13. unfold checksum in Hck. congruence.
        -- split; [eauto|]. split; [eauto|].
           intros Hn. exfalso. apply Hn. unfold checksum_fault.
           repeat split; [exact Hc|exact Hlen|congruence|].
           rewrite H13. unfold checksum in Hck. congruence.
      * split; [eauto|]. split; [|eauto].
        intros (_ & _ & Hh & _). congruence.
    + rewrite (checksummed_wrong_length self raw_state w Hc Hlen).
      split; [eauto|]. split; [|eauto].
      intros (_ & Hl & _). contradiction.
  - assert (self = ProtocolLEDENETOriginal) as ->
      by (destruct self; [reflexivity|discriminate Hc ..]).
    rewrite original_valid.
    split; [eauto|]. split; [|eauto].
    intros (Hf & _). discriminate Hf.
Qed.

Lemma validation_logs_checksum_faults_witness :
  (exists got,
      [0x81; 0x25; 0x23; 0x61; 0x21; 0x06; 0x38; 0x05; 0x06; 0xF9; 0x01; 0x00;
       0x0F; 0x9E] !! 13%nat = Some got
      /\ is_valid_state_response ProtocolLEDENET8Byte
           [0x81; 0x25; 0x23; 0x61; 0x21; 0x06; 0x38; 0x05; 0x06; 0xF9; 0x01;
            0x00; 0x0F; 0x9E] (World [[7]] [])
         = (Ok false,
            World (heap (World [[7]] []))
                  (log (World [[7]] [])
                   ++ [checksum_mismatch
                         (sum (take 13 [0x81; 0x25; 0x23; 0x61; 0x21; 0x06;
                                        0x38; 0x05; 0x06; 0xF9; 0x01; 0x00;
                                        0x0F; 0x9E]) mod 256) got])))
  /\ exists b,
       is_valid_state_response ProtocolLEDENET8Byte [0x80; 0x25]
         (World [[7]] []) = (Ok b, World [[7]] []).
Proof.
  split.
  - apply (proj1 (proj2 (validation_logs_checksum_faults ProtocolLEDENET8Byte
             [0x81; 0x25; 0x23; 0x61; 0x21; 0x06; 0x38; 0x05; 0x06; 0xF9; 0x01;
              0x00; 0x0F; 0x9E] (World [[7]] [])))).
    repeat split; discriminate.
  - apply (proj2 (proj2 (validation_logs_checksum_faults ProtocolLEDENET8Byte
             [0x80; 0x25] (World [[7]] [])))).
    intros (_ & Hl & _). discriminate Hl.
Defined.

(** X6. The checksummed protocols reject every response that differs from
    an accepted one in a single byte: whichever of the fourteen positions is
    overwritten with another value in 0..255, the verdict is False. *)
Theorem single_byte_corruption_is_rejected
    (self : protocol) (raw_state : list Z) (i : nat) (x : Z) (w : world) :
  checksummed self = true ->
  Forall in_range raw_state -> in_range x ->
  is_valid_state_response self raw_state w = (Ok true, w) ->
  (i < length raw_state)%nat ->
  raw_state !! i <> Some x ->
  fst (is_valid_state_response self (<[i := x]> raw_state) w) = Ok false.
Proof.
  intros Hc Hr Hx Hv Hi Hne.
  destruct (checksummed_accepts self Hc raw_state w w Hv)
    as (Hlen & H0 & H13 & _).
  assert (length (<[i := x]> raw_state) = 14%nat) as Hlen'
    by now rewrite length_insert.
  destruct (checksummed_verdict self Hc _ w Hlen')
    as (b0 & last & H0' & H13' & ->).
  destruct (Z.eqb_spec b0 0x81) as [Hb0|_]; [|reflexivity]. cbn [negb].
  destruct (Z.eqb_spec (checksum (take 13 (<[i := x]> raw_state))) last)
    as [Hck|_]; [|reflexivity].
  exfalso. subst b0 last.
  destruct (decide (i = 13%nat)) as [->|Hi13].
  - rewrite list_lookup_insert_eq in H13' by lia.
    rewrite take_insert_ge in H13' by lia.
    apply Hne. rewrite H13. congruence.
  - rewrite list_lookup_insert_ne in H13' by exact Hi13.
    destruct (decide (i = 0%nat)) as [->|Hi0].
    + rewrite list_lookup_insert_eq in H0' by lia.
      apply Hne. rewrite H0. congruence.
    + rewrite take_insert_lt in H13' by lia.
      destruct (lookup_lt_is_Some_2 raw_state i Hi) as [old Hold].
      assert (take 13 raw_state !! i = Some old) as Hold'
        by (rewrite lookup_take_lt by lia; exact Hold).
      unfold checksum in H13, H13'.
      rewrite (sum_insert _ _ old x Hold'), H13 in H13'.
      injection H13' as H13'.
      apply (checksum_shift (sum (take 13 raw_state)) old x); auto.
      * rewrite Forall_forall in Hr. apply Hr.
        apply (proj2 (list_elem_of_lookup raw_state old)). eauto.
      * intros ->. apply Hne. exact Hold.
Qed.

Lemma single_byte_corruption_is_rejected_witness :
  fst (is_valid_state_response ProtocolLEDENET8Byte
         (<[6%nat := 0x39]>
            [0x81; 0x25; 0x23; 0x61; 0x21; 0x06; 0x38; 0x05; 0x06; 0xF9; 0x01;
             0x00; 0x0F; 0x9D]) (World [] []))
  = Ok false.
Proof.
  apply single_byte_corruption_is_rejected;
    [reflexivity
    |apply forallb_is_byte_Forall; reflexivity
    |unfold in_range; lia
    |reflexivity
    |cbn [length]; lia
    |discriminate].
Defined.

(** X7. The checksum is a sum, so it does not see the order of the bytes:
    a response that differs from an accepted one only in the order of the
    twelve bytes between the head and the checksum is accepted too. *)
Theorem reordered_response_is_accepted
    (self : protocol) (b0 last : Z) (rest rest' : list Z) (w : world) :
  checksummed self = true ->
  rest ≡ₚ rest' ->
  is_valid_state_response self ((b0 :: rest) ++ [last]) w = (Ok true, w) ->
  is_valid_state_response self ((b0 :: rest') ++ [last]) w = (Ok true, w).
Proof.
  intros Hc Hp Hv.
  destruct (checksummed_accepts self Hc _ w w Hv) as (Hlen & _).
  assert (length rest = 12%nat) as Hrest.
  { rewrite length_app in Hlen. cbn [length] in Hlen. lia. }
  assert (length rest' = 12%nat) as Hrest'
    by (rewrite <- (Permutation_length Hp); exact Hrest).
  rewrite (checksummed_valid self b0 last rest w Hc Hrest) in Hv.
  rewrite (checksummed_valid self b0 last rest' w Hc Hrest').
  unfold checksum in *. rewrite !sum_cons in *.
  now rewrite <- (sum_Permutation rest rest' Hp).
Qed.

Lemma reordered_response_is_accepted_witness :
  is_valid_state_response ProtocolLEDENET8Byte
    ((0x81 :: [0x23; 0x25; 0x61; 0x21; 0x06; 0x38; 0x05; 0x06; 0xF9; 0x01;
               0x00; 0x0F]) ++ [0x9D]) (World [] [])
  = (Ok true, World [] []).
Proof.
  apply (reordered_response_is_accepted ProtocolLEDENET8Byte 0x81 0x9D
           [0x25; 0x23; 0x61; 0x21; 0x06; 0x38; 0x05; 0x06; 0xF9; 0x01; 0x00;
            0x0F]);
    [reflexivity|apply perm_swap|reflexivity].
Defined.

(** X8. No sequence is a valid state response both for the Original
    protocol and for a checksummed one: the lengths they ask for differ. *)
Theorem original_and_checksummed_responses_disjoint
    (self : protocol) (raw_state : list Z) (w1 w1' w2 w2' : world) :
  checksummed self = true ->
  is_valid_state_response ProtocolLEDENETOriginal raw_state w1 = (Ok true, w1') ->
  is_valid_state_response self raw_state w2 <> (Ok true, w2').
Proof.
  intros Hc Ho Hv.
  destruct (checksummed_accepts self Hc raw_state w2 w2' Hv) as (Hlen & _).
  rewrite original_valid in Ho. injection Ho as Hb _.
  apply andb_true_iff in Hb as [Hl _].
  apply (len_length raw_state 11) in Hl. congruence.
Qed.

Lemma original_and_checksummed_responses_disjoint_witness :
  is_valid_state_response ProtocolLEDENET9Byte
    [0x66; 0x01; 0x24; 0x39; 0x21; 0x0A; 0xFF; 0x00; 0x00; 0x01; 0x99]
    (World [] [])
  <> (Ok true, World [] []).
Proof.
  apply (original_and_checksummed_responses_disjoint ProtocolLEDENET9Byte
           [0x66; 0x01; 0x24; 0x39; 0x21; 0x0A; 0xFF; 0x00; 0x00; 0x01; 0x99]
           (World [] []) (World [] []) (World [] []) (World [] []));
    reflexivity.
Defined.

(** ** What the messages tell *)

Section Framing.

Lemma checksummed_construct_message
    (self : protocol) (r : ref) (bs : list Z) (w : world) :
  checksummed self = true -> heap w !! r = Some bs ->
  construct_message self r w
  = (Ok r, World (<[r := bs ++ [checksum bs]]> (heap w)) (log w)).
Proof.
  intros Hc Hr.
  assert (construct_message self = ProtocolLEDENET8Byte_construct_message self)
    as -> by (destruct self; [discriminate Hc|reflexivity ..]).
  unfold ProtocolLEDENET8Byte_construct_message, bind, items, append, ret.
  rewrite Hr. cbv beta iota. rewrite Hr, land_0xFF. fold (checksum bs).
  now rewrite is_byte_checksum.
Qed.

Lemma framed_payload_inv (self : protocol) (l k : list Z) :
  framed self l = framed self k -> l = k.
Proof.
  destruct self; cbn [framed]; intros H; [exact H| |];
    now apply app_inj_tail in H.
Qed.

End Framing.

(** X9. construct_levels_change loses none of the arguments a protocol
    writes: two calls of one protocol that return the same message were
    given the same red, green and blue, for the checksummed protocols also
    the same persist, warm_white and write mode, and for the 9-Byte one the
    same cool_white. *)
Theorem levels_change_injective
    (self : protocol) (persist persist' : bool)
    (red green blue warm_white cool_white : Z)
    (red' green' blue' warm_white' cool_white' : Z)
    (write_mode write_mode' : LevelWriteMode) (w w' : world) (msg : list Z) :
  message_of (construct_levels_change self persist red green blue warm_white
                cool_white write_mode) w = Ok msg ->
  message_of (construct_levels_change self persist' red' green' blue'
                warm_white' cool_white' write_mode') w' = Ok msg ->
  red = red' /\ green = green' /\ blue = blue'
  /\ (checksummed self = true ->
      persist = persist' /\ warm_white = warm_white'
      /\ write_mode = write_mode')
  /\ (self = ProtocolLEDENET9Byte -> cool_white = cool_white').
Proof.
  intros H H'.
  apply (message_of_construct_Ok self
           (LevelsChange persist red green blue warm_white cool_white
                         write_mode)) in H as [-> _].
  apply (message_of_construct_Ok self
           (LevelsChange persist' red' green' blue' warm_white' cool_white'
                         write_mode')) in H' as [H' _].
  apply framed_payload_inv in H'.
  destruct self; cbn [payload] in H'.
  - injection H' as -> -> ->. repeat split; discriminate.
  - injection H' as Hp -> -> -> -> Hm.
    apply persist_byte_inj in Hp as ->. apply value_inj in Hm as ->.
    repeat split; discriminate.
  - injection H' as Hp -> -> -> -> -> Hm.
    apply persist_byte_inj in Hp as ->. apply value_inj in Hm as ->.
    repeat split.
Qed.

Lemma levels_change_injective_witness :
  0x90 = 0x90 /\ 0xFA = 0xFA /\ 0x77 = 0x77
  /\ (checksummed ProtocolLEDENET8Byte = true ->
      true = true /\ 0x10 = 0x10 /\ WHITES = WHITES)
  /\ (ProtocolLEDENET8Byte = ProtocolLEDENET9Byte -> 1 = 2).
Proof.
  apply (levels_change_injective ProtocolLEDENET8Byte true true
           0x90 0xFA 0x77 0x10 1 0x90 0xFA 0x77 0x10 2 WHITES WHITES
           (World [] []) (World [[7]] [])
           [0x31; 0x90; 0xFA; 0x77; 0x10; 0x0F; 0x0F; 0x60]);
    reflexivity.
Defined.

(** X10. A message tells which constructor built it: within one protocol,
    a state query, a state change and a levels change never give the same
    message, and the messages for turning on and for turning off differ. *)
Theorem messages_tell_commands_apart
    (self : protocol) (c1 c2 : command) (w1 w2 : world) (msg : list Z) :
  message_of (construct self c1) w1 = Ok msg ->
  message_of (construct self c2) w2 = Ok msg ->
  kind_of c1 = kind_of c2
  /\ (forall t1 t2, c1 = StateChange t1 -> c2 = StateChange t2 -> t1 = t2).
Proof.
  intros H1 H2.
  apply message_of_construct_Ok in H1 as [-> _].
  apply message_of_construct_Ok in H2 as [H _].
  apply framed_payload_inv in H.
  split.
  - destruct c1 as [|t1|p1 ? ? ? ? ? ?], c2 as [|t2|p2 ? ? ? ? ? ?];
      try reflexivity; exfalso;
      destruct self; cbn [payload] in H;
      try destruct p1; try destruct p2; discriminate H.
  - intros t1 t2 -> ->.
    destruct self, t1, t2; try reflexivity; discriminate H.
Qed.

Lemma messages_tell_commands_apart_witness :
  kind_of (StateChange true) = kind_of (StateChange true)
  /\ (forall t1 t2,
         StateChange true = StateChange t1 ->
         StateChange true = StateChange t2 -> t1 = t2).
Proof.
  apply (messages_tell_commands_apart ProtocolLEDENET8Byte
           (StateChange true) (StateChange true) (World [] []) (World [[7]] [])
           [0x71; 0x23; 0x0F; 0xA3]);
    reflexivity.
Defined.

(** X11. construct_message works on the bytearray it is given and returns
    that same object: afterwards the object holds the framed bytes (the
    bytes themselves for the Original protocol, the bytes and their checksum
    for the checksummed ones); no other bytearray changes and nothing is
    logged.  Appending the checksum never raises. *)
Theorem construct_message_mutates_argument
    (self : protocol) (raw_bytes : ref) (bs : list Z) (w : world) :
  heap w !! raw_bytes = Some bs ->
  exists w',
    construct_message self raw_bytes w = (Ok raw_bytes, w')
    /\ heap w' !! raw_bytes = Some (framed self bs)
    /\ (forall r, r <> raw_bytes -> heap w' !! r = heap w !! r)
    /\ log w' = log w.
Proof.
  intros Hr. destruct (checksummed self) eqn:Hc.
  - rewrite (checksummed_construct_message self raw_bytes bs w Hc Hr).
    eexists. split; [reflexivity|]. cbn [heap log]. split; [|split].
    + rewrite list_lookup_insert_eq by (eapply lookup_lt_Some; exact Hr).
      destruct self; [discriminate Hc|reflexivity ..].
    + intros r Hne. now rewrite list_lookup_insert_ne by congruence.
    + reflexivity.
  - assert (self = ProtocolLEDENETOriginal) as ->
      by (destruct self; [reflexivity|discriminate Hc ..]).
    exists w. repeat split. exact Hr.
Qed.

Lemma construct_message_mutates_argument_witness :
  exists w',
    construct_message ProtocolLEDENET8Byte 1%nat
      (World [[7]; [0x71; 0x23; 0x0F]] [])
    = (Ok 1%nat, w')
    /\ heap w' !! 1%nat = Some (framed ProtocolLEDENET8Byte [0x71; 0x23; 0x0F])
    /\ (forall r, r <> 1%nat ->
                  heap w' !! r = heap (World [[7]; [0x71; 0x23; 0x0F]] []) !! r)
    /\ log w' = log (World [[7]; [0x71; 0x23; 0x0F]] []).
Proof.
  apply (construct_message_mutates_argument ProtocolLEDENET8Byte 1%nat
           [0x71; 0x23; 0x0F] (World [[7]; [0x71; 0x23; 0x0F]] [])).
  reflexivity.
Defined.

(** X12. Framing is not idempotent: construct_message of a checksummed
    protocol called again on the bytearray it returned appends a second
    byte, twice the sum of the original bytes modulo 256. *)
Theorem construct_message_twice
    (self : protocol) (raw_bytes : ref) (bs : list Z) (w : world) :
  checksummed self = true ->
  heap w !! raw_bytes = Some bs ->
  message_of (let* framed_bytes := construct_message self raw_bytes in
              construct_message self framed_bytes) w
  = Ok (bs ++ [sum bs mod 256; (2 * sum bs) mod 256]).
Proof.
  intros Hc Hr.
  pose proof (lookup_lt_Some _ _ _ Hr) as Hlt.
  unfold message_of, bind.
  rewrite (checksummed_construct_message self raw_bytes bs w Hc Hr).
  rewrite (checksummed_construct_message self raw_bytes (bs ++ [checksum bs]));
    [|exact Hc|cbn [heap]; now rewrite list_lookup_insert_eq].
  unfold items. cbn [heap log fst].
  rewrite list_lookup_insert_eq by now rewrite length_insert.
  cbn [fst]. f_equal. rewrite <- app_assoc. cbn [app]. f_equal. f_equal.
  f_equal. unfold checksum. rewrite sum_app, sum_cons.
  change (sum []) with 0. rewrite Z.add_0_r, Z.add_mod_idemp_r by lia.
  f_equal. lia.
Qed.

Lemma construct_message_twice_witness :
  message_of (let* framed_bytes := construct_message ProtocolLEDENET9Byte 0%nat in
              construct_message ProtocolLEDENET9Byte framed_bytes)
             (World [[0x71; 0x23; 0x0F]] [])
  = Ok ([0x71; 0x23; 0x0F]
        ++ [sum [0x71; 0x23; 0x0F] mod 256; (2 * sum [0x71; 0x23; 0x0F]) mod 256]).
Proof.
  apply (construct_message_twice ProtocolLEDENET9Byte 0%nat [0x71; 0x23; 0x0F]
           (World [[0x71; 0x23; 0x0F]] []));
    reflexivity.
Defined.

(** X13. Framing and validation agree: thirteen bytes that start with 0x81,
    made into a bytearray and framed by construct_message of a checksummed
    protocol, are a state response that is_valid_state_response of that
    protocol accepts, without logging. *)
Theorem framed_state_is_accepted
    (self : protocol) (bs : list Z) (w w0 : world) :
  checksummed self = true ->
  length bs = 13%nat ->
  bs !! 0%nat = Some 0x81 ->
  Forall in_range bs ->
  exists m,
    message_of (let* raw_bytes := bytearray bs in
                construct_message self raw_bytes) w = Ok m
    /\ is_valid_state_response self m w0 = (Ok true, w0).
Proof.
  intros Hc Hlen Hhead Hr.
  exists (framed self bs). split.
  - apply builds_message_of, construct_message_builds.
    now apply forallb_is_byte_Forall.
  - assert (framed self bs = bs ++ [checksum bs]) as ->
      by (destruct self; [discriminate Hc|reflexivity ..]).
    destruct bs as [|b0 rest]; [discriminate Hlen|].
    injection Hhead as ->. injection Hlen as Hlen.
    rewrite (checksummed_valid self 0x81 (checksum (0x81 :: rest)) rest w0 Hc Hlen).
    rewrite !Z.eqb_refl. reflexivity.
Qed.

Lemma framed_state_is_accepted_witness :
  exists m,
    message_of (let* raw_bytes :=
                  bytearray [0x81; 0x25; 0x23; 0x61; 0x21; 0x06; 0x38; 0x05;
                             0x06; 0xF9; 0x01; 0x00; 0x0F] in
                construct_message ProtocolLEDENET8Byte raw_bytes) (World [] [])
    = Ok m
    /\ is_valid_state_response ProtocolLEDENET8Byte m (World [] [])
       = (Ok true, World [] []).
Proof.
  apply framed_state_is_accepted;
    [reflexivity|reflexivity|reflexivity
    |apply forallb_is_byte_Forall; reflexivity].
Defined.



(** X15. Every message a constructor returns is made of bytes, items in
    0..255, and its length depends on the protocol and the kind of command
    only: 3 bytes for a query or a state change and 5 for a levels change
    in the Original protocol, 4 for a query or a state change in the
    checksummed ones, 8 and 9 for the levels change of the 8-Byte and the
    9-Byte protocol. *)
Theorem messages_are_bytes
    (self : protocol) (cmd : command) (w : world) (msg : list Z) :
  message_of (construct self cmd) w = Ok msg ->
  Forall in_range msg /\ length msg = message_length self (kind_of cmd).
Proof.
  intros H. apply message_of_construct_Ok in H as [-> Hr]. split.
  - apply framed_bytes, forallb_is_byte_Forall.
    rewrite payload_bytes. now apply forallb_is_byte_Forall.
  - destruct cmd, self; reflexivity.
Qed.

Lemma messages_are_bytes_witness :
  Forall in_range [0x81; 0x8A; 0x8B; 0x96]
  /\ length [0x81; 0x8A; 0x8B; 0x96]
     = message_length ProtocolLEDENET8Byte (kind_of StateQuery).
Proof.
  apply (messages_are_bytes ProtocolLEDENET8Byte StateQuery (World [] [])).
  reflexivity.
Defined.

(** X16. The three protocols have three different names: the name tells
    the protocol. *)
Theorem name_inj (p q : protocol) : name p = name q -> p = q.
Proof. destruct p, q; intros H; try reflexivity; discriminate H. Qed.

Lemma name_inj_witness : ProtocolLEDENET9Byte = ProtocolLEDENET9Byte.
Proof. apply name_inj. reflexivity. Defined.
